(** * Image-analysis route of the math solver: a shallow embedding

    The development follows the two JavaScript modules of the server,
    [route.js] (the POST handler) and [utils.js] ([fileToGenerativePart],
    [analyzeImage]), and then the two components that the specification
    describes but whose code is not part of the sources at hand (the
    expression validator and the geometric formula registry).

    JavaScript values are an inductive type, thrown exceptions are the
    [inr] branch of a small error monad, and everything the handler asks of
    its environment (the Joi schema, [sharp], the generative model,
    [JSON.parse], ...) is a field of the record [Runtime]. Every call that
    leaves the process is recorded in a trace. *)

From Stdlib Require Import Ascii String QArith ZArith List Bool Lia Reals Qreals Lra.
From stdpp Require Import base option list strings gmap.

Local Open Scope Z_scope.
Set Warnings "-register-all".

(** ** Strings

    A JavaScript string is modelled by a Rocq [string]; each [ascii] stands
    for one code unit below 256. *)

(** The double-quote character (code 34). *)
Definition dq : string := String (ascii_of_nat 34) EmptyString.
(** Line feed. *)
Definition nl : string := String (ascii_of_nat 10) EmptyString.

Fixpoint is_prefix (p s : string) : bool :=
  match p, s with
  | EmptyString, _ => true
  | String a p', String b s' => Ascii.eqb a b && is_prefix p' s'
  | String _ _, EmptyString => false
  end.

(** [s.replace(/pat/g, rep)] for a pattern without metacharacters: matches
    are found left to right and do not overlap; [skip] counts the characters
    of the current match that are still to be dropped. *)
Fixpoint replace_go (pat rep : string) (skip : nat) (s : string) : string :=
  match s with
  | EmptyString => EmptyString
  | String c s' =>
      match skip with
      | S k => replace_go pat rep k s'
      | O =>
          if is_prefix pat s
          then rep +:+ replace_go pat rep (String.length pat - 1) s'
          else String c (replace_go pat rep 0 s')
      end
  end.

Definition replace_all (pat rep s : string) : string := replace_go pat rep 0 s.

(** [s.split(sep)] for a one-character separator. *)
Fixpoint js_split (sep : ascii) (s : string) : list string :=
  match s with
  | EmptyString => [EmptyString]
  | String c s' =>
      if Ascii.eqb c sep then EmptyString :: js_split sep s'
      else match js_split sep s' with
           | h :: t => String c h :: t
           | [] => [String c EmptyString]
           end
  end.

(** The characters that [.] does not match in a regular expression without
    the [s] flag; of the four line terminators, LF and CR are below 256. *)
Definition is_line_terminator (c : ascii) : bool :=
  Ascii.eqb c (ascii_of_nat 10) || Ascii.eqb c (ascii_of_nat 13).

Fixpoint take_line (s : string) : string :=
  match s with
  | EmptyString => EmptyString
  | String c s' => if is_line_terminator c then EmptyString else String c (take_line s')
  end.

(** Start of the last occurrence of [pat] in [s]. *)
Fixpoint last_occurrence (pat s : string) : option nat :=
  match s with
  | EmptyString => None
  | String _ s' =>
      match last_occurrence pat s' with
      | Some k => Some (S k)
      | None => if is_prefix pat s then Some O else None
      end
  end.

Fixpoint take_string (n : nat) (s : string) : string :=
  match n, s with
  | S n', String c s' => String c (take_string n' s')
  | _, _ => EmptyString
  end.

Fixpoint drop_string (n : nat) (s : string) : string :=
  match n, s with
  | S n', String _ s' => drop_string n' s'
  | _, _ => s
  end.

(** [image.match(/^data:(.+);base64/)]: [None] is the [null] of a failed
    match, [Some m] a match whose first group is [m]. The group is greedy:
    it extends to the last [;base64] of the first line and has at least one
    character. *)
Definition match_data_url (image : string) : option string :=
  if is_prefix "data:" image then
    match take_line (drop_string 5 image) with
    | EmptyString => None
    | String c rest =>
        match last_occurrence ";base64" rest with
        | Some k => Some (String c (take_string k rest))
        | None => None
        end
    end
  else None.

(** ** JavaScript values, errors and buffers *)

(** Numbers are the rationals: every finite double is one, and JSON carries
    neither NaN nor infinities. An object is the sequence of its members in
    insertion order. *)
Inductive JsValue : Type :=
| JUndefined
| JNull
| JBool (b : bool)
| JNum (q : Q)
| JStr (s : string)
| JArr (items : list JsValue)
| JObj (members : list (string * JsValue)).

Definition JInt (z : Z) : JsValue := JNum (inject_Z z).

(** Property read [o[k]] on an object given by its members. *)
Fixpoint js_get (k : string) (members : list (string * JsValue)) : JsValue :=
  match members with
  | [] => JUndefined
  | (k', v) :: rest => if String.eqb k k' then v else js_get k rest
  end.

(** Property write [o[k] = v]: an existing member keeps its place and takes
    the new value, a new member goes to the end. *)
Fixpoint js_set (k : string) (v : JsValue) (members : list (string * JsValue))
  : list (string * JsValue) :=
  match members with
  | [] => [(k, v)]
  | (k', v') :: rest =>
      if String.eqb k k' then (k', v) :: rest else (k', v') :: js_set k v rest
  end.

(** The object a JSON parser builds from the members of an object literal,
    written left to right. *)
Definition js_object_of_members (ms : list (string * JsValue)) : list (string * JsValue) :=
  fold_left (fun o kv => js_set (fst kv) (snd kv) o) ms [].

(** A thrown value: an [Error] instance with its [name] and [message]. *)
Record JsError : Type := mkError { err_name : string; err_message : string }.

Definition TypeError (msg : string) : JsError := mkError "TypeError" msg.

Definition Buffer : Type := list Byte.byte.

(** The part sent to the generative model next to the prompt. *)
Record GenerativePart : Type := mkPart { inline_data : string; inline_mimeType : string }.

(** The [error] of a failed Joi validation. *)
Record ValidationError : Type := mkValidationError { details : JsValue }.

(** ** Effects: a trace of external calls, and exceptions *)

Inductive Event : Type :=
| SharpResize (input : Buffer)
| GenerateContent (prompt : string) (part : GenerativePart)
| ConsoleLog (label text : string)
| ConsoleError (label text : string).

(** A computation ends normally ([inl]) or by a throw ([inr]) and leaves the
    events it emitted, oldest first. *)
Definition M (A : Type) : Type := ((A + JsError) * list Event)%type.

Definition ret {A} (a : A) : M A := (inl a, []).
Definition throw {A} (e : JsError) : M A := (inr e, []).
Definition emit (ev : Event) : M unit := (inl tt, [ev]).

Definition bind {A B} (m : M A) (k : A -> M B) : M B :=
  match m with
  | (inl a, t) => let (r, t') := k a in (r, t ++ t')
  | (inr e, t) => (inr e, t)
  end.

(** [try { m } catch (error) { h error }]. *)
Definition try_catch {A} (m : M A) (h : JsError -> M A) : M A :=
  match m with
  | (inl a, t) => (inl a, t)
  | (inr e, t) => let (r, t') := h e in (r, t ++ t')
  end.

(** A call into the environment that returns or throws. *)
Definition lift {A} (r : A + JsError) : M A := (r, []).

Definition outcome {A} (m : M A) : A + JsError := fst m.
Definition trace {A} (m : M A) : list Event := snd m.

Declare Scope js_scope.
Delimit Scope js_scope with js.
Notation "x <- m ;; k" := (bind m (fun x => k))
  (at level 100, m at next level, right associativity) : js_scope.
Notation "m ;;; k" := (bind m (fun _ => k))
  (at level 100, right associativity) : js_scope.
Local Open Scope js_scope.

(** ** The environment of the server *)

Record Runtime : Type := mkRuntime {
  (** [ImageDataSchema.validate(body)] of [schema.js]: the pair [{ error, value }]. *)
  ImageDataSchema_validate : JsValue -> option ValidationError * JsValue;
  (** [Buffer.from(s, "base64")]. *)
  Buffer_from_base64 : string -> Buffer;
  (** [buf.toString("base64")]. *)
  Buffer_toString_base64 : Buffer -> string;
  (** [await sharp(buf).resize({ width: 500 }).toBuffer()]. *)
  sharp_resize_toBuffer : Buffer -> Buffer + JsError;
  (** [(await model.generateContent([prompt, part])).response.text()]. *)
  model_generateContent : string -> GenerativePart -> string + JsError;
  JSON_stringify : JsValue -> string;
  JSON_parse : string -> JsValue + JsError
}.

(** ** utils.js *)

Definition fileToGenerativePart (rt : Runtime) (imageBuffer : Buffer) (mimeType : string)
  : GenerativePart :=
  {| inline_data := Buffer_toString_base64 rt imageBuffer;
     inline_mimeType := mimeType |}.

(** One line [f"..."] of the prompt, with its indentation. *)
Definition fline (indent text : string) : string :=
  indent +:+ "f" +:+ dq +:+ text +:+ dq +:+ nl.

(** The template literal of [analyzeImage]. It has no [${...}] placeholder:
    [{dict_of_vars_str}] and the doubled braces are literal text. *)
Definition prompt_text : string := String.concat EmptyString [
    nl;
    fline "    "
      "You have been given an image with some mathematical expressions, equations, or graphical problems, and you need to solve them. ";
    fline "        "
      "Note: Use the PEMDAS rule for solving mathematical expressions. PEMDAS stands for the Priority Order: Parentheses, Exponents, Multiplication and Division (from left to right), Addition and Subtraction (from left to right). Parentheses have the highest priority, followed by Exponents, then Multiplication and Division, and lastly Addition and Subtraction. ";
    fline "        "
      "For example: ";
    fline "        "
      "Q. 2 + 3 * 4 ";
    fline "        "
      "(3 * 4) => 12, 2 + 12 = 14. ";
    fline "        "
      "Q. 2 + 3 + 5 * 4 - 8 / 2 ";
    fline "        "
      "5 * 4 => 20, 8 / 2 => 4, 2 + 3 => 5, 5 + 20 => 25, 25 - 4 => 21. ";
    fline "        "
      "YOU CAN HAVE FIVE TYPES OF EQUATIONS/EXPRESSIONS IN THIS IMAGE, AND ONLY ONE CASE SHALL APPLY EVERY TIME: ";
    fline "        "
      "Following are the cases: ";
    fline "        "
      "1. Simple mathematical expressions like 2 + 2, 3 * 4, 5 / 6, 7 - 8, etc.: In this case, solve and return the answer in the format of a LIST OF ONE DICT [{{'expr': given expression, 'result': calculated answer}}]. ";
    fline "        "
      "2. Set of Equations like x^2 + 2x + 1 = 0, 3y + 4x = 0, 5x^2 + 6y + 7 = 12, etc.: In this case, solve for the given variable, and the format should be a COMMA SEPARATED LIST OF DICTS, with dict 1 as {{'expr': 'x', 'result': 2, 'assign': True}} and dict 2 as {{'expr': 'y', 'result': 5, 'assign': True}}. This example assumes x was calculated as 2, and y as 5. Include as many dicts as there are variables. ";
    fline "        "
      "3. Assigning values to variables like x = 4, y = 5, z = 6, etc.: In this case, assign values to variables and return another key in the dict called {{'assign': True}}, keeping the variable as 'expr' and the value as 'result' in the original dictionary. RETURN AS A LIST OF DICTS. ";
    fline "        "
      "4. Analyzing Graphical Math problems, which are word problems represented in drawing form, such as cars colliding, trigonometric problems, problems on the Pythagorean theorem, adding runs from a cricket wagon wheel, etc. These will have a drawing representing some scenario and accompanying information with the image. PAY CLOSE ATTENTION TO DIFFERENT COLORS FOR THESE PROBLEMS. You need to return the answer in the format of a LIST OF ONE DICT [{{'expr': given expression, 'result': calculated answer}}]. ";
    fline "        "
      "5. Detecting Abstract Concepts that a drawing might show, such as love, hate, jealousy, patriotism, or a historic reference to war, invention, discovery, quote, etc. USE THE SAME FORMAT AS OTHERS TO RETURN THE ANSWER, where 'expr' will be the explanation of the drawing, and 'result' will be the abstract concept. ";
    fline "        "
      "Analyze the equation or expression in this image and return the answer according to the given rules: ";
    fline "        "
      "Make sure to use extra backslashes for escape characters like \f -> \\f, \n -> \\n, etc. ";
    fline "        "
      "Here is a dictionary of user-assigned variables. If the given expression has any of these variables, use its actual value from this dictionary accordingly: {dict_of_vars_str}. ";
    fline "        "
      "DO NOT USE BACKTICKS OR MARKDOWN FORMATTING. ";
    fline "        "
      "PROPERLY QUOTE THE KEYS AND VALUES IN THE DICTIONARY FOR EASIER PARSING WITH Python's ast.literal_eval.";
    "  "
  ].

Definition console_log (label text : string) : M unit := emit (ConsoleLog label text).
Definition console_error (label text : string) : M unit := emit (ConsoleError label text).

(** The four [replace] calls that clean the model's reply. *)
Definition clean_response (responseText : string) : string :=
  replace_all "False" "false"
    (replace_all "True" "true"
      (replace_all "'" dq
        (replace_all "```" EmptyString
          (replace_all "```json" EmptyString responseText)))).

Definition generateContent (rt : Runtime) (prompt : string) (part : GenerativePart) : M string :=
  emit (GenerateContent prompt part) ;;;
  lift (model_generateContent rt prompt part).

Definition analyzeImage (rt : Runtime) (imageBuffer : Buffer) (dictOfVars : JsValue)
  : M JsValue :=
  let dict_of_vars_str := JSON_stringify rt dictOfVars in
  let prompt := prompt_text in
  try_catch
    (let mimeType := "image/jpeg" in
     let imagePart := fileToGenerativePart rt imageBuffer mimeType in
     responseText <- generateContent rt prompt imagePart ;;
     console_log "Response from Gemini:" responseText ;;;
     let cleanedResponse := clean_response responseText in
     answers <- try_catch
                  (lift (JSON_parse rt cleanedResponse))
                  (fun error =>
                     console_error "Error parsing Gemini response:" (err_message error) ;;;
                     console_error "Cleaned response:" cleanedResponse ;;;
                     ret (JArr [])) ;;
     ret answers)
    (fun error =>
       console_error "Error generating content:" (err_message error) ;;;
       throw error).

(** ** route.js *)

(** What [res.status(code).json(body)] sends. *)
Record Response : Type := mkResponse { statusCode : Z; jsonBody : JsValue }.

Definition res_status_json (code : Z) (members : list (string * JsValue)) : Response :=
  {| statusCode := code; jsonBody := JObj members |}.

(** [const { image, dict_of_vars } = value;] *)
Definition destructure_value (value : JsValue) : M (JsValue * JsValue) :=
  match value with
  | JUndefined =>
      throw (TypeError "Cannot destructure property 'image' of 'value' as it is undefined.")
  | JNull =>
      throw (TypeError "Cannot destructure property 'image' of 'value' as it is null.")
  | JObj members => ret (js_get "image" members, js_get "dict_of_vars" members)
  | _ => ret (JUndefined, JUndefined)
  end.

(** The receiver of [image.split(...)]: only a string has the method. *)
Definition image_string (image : JsValue) : M string :=
  match image with
  | JStr s => ret s
  | JUndefined => throw (TypeError "Cannot read properties of undefined (reading 'split')")
  | JNull => throw (TypeError "Cannot read properties of null (reading 'split')")
  | _ => throw (TypeError "image.split is not a function")
  end.

(** [image.match(/^data:(.+);base64/)[1]]: indexing [null] throws. *)
Definition match_group_1 (image : string) : M string :=
  match match_data_url image with
  | Some mimeType => ret mimeType
  | None => throw (TypeError "Cannot read properties of null (reading '1')")
  end.

(** [Buffer.from(base64Data, "base64")], where [base64Data] is [undefined]
    when the image has no comma. *)
Definition Buffer_from (rt : Runtime) (base64Data : option string) : M Buffer :=
  match base64Data with
  | Some d => ret (Buffer_from_base64 rt d)
  | None =>
      throw (TypeError
        "The first argument must be of type string or an instance of Buffer, ArrayBuffer, or Array or an Array-like Object. Received undefined")
  end.

Definition sharp (rt : Runtime) (imageBuffer : Buffer) : M Buffer :=
  emit (SharpResize imageBuffer) ;;;
  lift (sharp_resize_toBuffer rt imageBuffer).

Definition validation_failed (error : ValidationError) : Response :=
  res_status_json 400
    [("message", JStr "Validation failed"); ("errors", details error)].

Definition processed_successfully (responses : JsValue) : Response :=
  res_status_json 200
    [("message", JStr "Image processed successfully");
     ("data", responses);
     ("status", JStr "success")].

Definition internal_server_error (error : JsError) : Response :=
  res_status_json 500
    [("message", JStr "Internal server error");
     ("status", JStr "failure");
     ("error", JStr (err_message error))].

(** The body of the handler's [try]. *)
Definition handler_try (rt : Runtime) (req_body : JsValue) : M Response :=
  let (error, value) := ImageDataSchema_validate rt req_body in
  match error with
  | Some error => ret (validation_failed error)
  | None =>
      fields <- destructure_value value ;;
      let image := fst fields in
      let dict_of_vars := snd fields in
      image <- image_string image ;;
      let base64Data := nth_error (js_split "," image) 1 in
      mimeType <- match_group_1 image ;;
      imageBuffer <- Buffer_from rt base64Data ;;
      processedImage <- sharp rt imageBuffer ;;
      responses <- analyzeImage rt processedImage dict_of_vars ;;
      ret (processed_successfully responses)
  end.

(** [router.post("/", async (req, res) => { try {...} catch (error) {...} })]. *)
Definition handler (rt : Runtime) (req_body : JsValue) : M Response :=
  try_catch (handler_try rt req_body)
    (fun error =>
       console_error "Error in /calculate route:" (err_message error) ;;;
       ret (internal_server_error error)).

(** ** A concrete environment for the examples

    The schema asks for a string [image]; a buffer holds the characters of
    its text, base64 is not decoded; [sharp] refuses an empty buffer; the
    model answers with a fixed [reply]; [JSON.stringify], whose result
    [analyzeImage] never uses, is constant. *)

Definition demo_validate (body : JsValue) : option ValidationError * JsValue :=
  match body with
  | JObj members =>
      match js_get "image" members with
      | JStr _ => (None, body)
      | _ => (Some (mkValidationError (JArr [JStr "image must be a string"])), body)
      end
  | _ => (Some (mkValidationError (JArr [JStr "value must be of type object"])), body)
  end.

Definition demo_bytes (s : string) : Buffer := map byte_of_ascii (list_ascii_of_string s).
Definition demo_text (b : Buffer) : string := string_of_list_ascii (map ascii_of_byte b).

Definition demo_sharp (b : Buffer) : Buffer + JsError :=
  match b with
  | [] => inr (mkError "Error" "Input Buffer is empty")
  | _ => inl b
  end.

(** A reader for JSON texts, for the examples: [null], [true], [false],
    numbers, strings with their escapes (a [\u] escape up to 00ff), arrays
    and objects; a member that repeats a name overwrites the earlier one. *)
Module Json.

Definition quote : ascii := ascii_of_nat 34.
Definition backslash : ascii := ascii_of_nat 92.

Definition is_ws (c : ascii) : bool :=
  Ascii.eqb c " " || Ascii.eqb c (ascii_of_nat 9)
  || Ascii.eqb c (ascii_of_nat 10) || Ascii.eqb c (ascii_of_nat 13).

Fixpoint skip_ws (s : list ascii) : list ascii :=
  match s with
  | c :: r => if is_ws c then skip_ws r else s
  | [] => []
  end.

Definition digit (c : ascii) : option Z :=
  let n := nat_of_ascii c in
  if (48 <=? n)%nat && (n <=? 57)%nat then Some (Z.of_nat (n - 48)) else None.

Definition hex_digit (c : ascii) : option nat :=
  let n := nat_of_ascii c in
  if (48 <=? n)%nat && (n <=? 57)%nat then Some (n - 48)%nat
  else if (97 <=? n)%nat && (n <=? 102)%nat then Some (n - 87)%nat
  else if (65 <=? n)%nat && (n <=? 70)%nat then Some (n - 55)%nat
  else None.

(** The digits at the head of [s]: their value after [acc], how many they
    are, and the rest. *)
Fixpoint read_digits (acc : Z) (count : nat) (s : list ascii) : Z * nat * list ascii :=
  match s with
  | c :: r =>
      match digit c with
      | Some d => read_digits (10 * acc + d) (S count) r
      | None => (acc, count, s)
      end
  | [] => (acc, count, [])
  end.

(** [-? int frac? exp?], as a rational. *)
Definition read_number (s : list ascii) : option (Q * list ascii) :=
  let (negative, s1) :=
    match s with
    | c :: r => if Ascii.eqb c "-" then (true, r) else (false, s)
    | [] => (false, s)
    end in
  let int_part :=
    match s1 with
    | c :: r =>
        if Ascii.eqb c "0" then Some (0, r)
        else match read_digits 0 0 s1 with
             | (_, O, _) => None
             | (n, _, r') => Some (n, r')
             end
    | [] => None
    end in
  match int_part with
  | None => None
  | Some (n, s2) =>
      let frac_part :=
        match s2 with
        | c :: r =>
            if Ascii.eqb c "." then
              match read_digits 0 0 r with
              | (_, O, _) => None
              | (f, k, r') => Some (f, k, r')
              end
            else Some (0, O, s2)
        | [] => Some (0, O, s2)
        end in
      match frac_part with
      | None => None
      | Some (f, k, s3) =>
          let exp_part :=
            match s3 with
            | c :: r =>
                if Ascii.eqb c "e" || Ascii.eqb c "E" then
                  let (minus, r1) :=
                    match r with
                    | d :: r' =>
                        if Ascii.eqb d "-" then (true, r')
                        else if Ascii.eqb d "+" then (false, r')
                        else (false, r)
                    | [] => (false, r)
                    end in
                  match read_digits 0 0 r1 with
                  | (_, O, _) => None
                  | (e, _, r2) => Some (if minus then - e else e, r2)
                  end
                else Some (0, s3)
            | [] => Some (0, s3)
            end in
          match exp_part with
          | None => None
          | Some (e, s4) =>
              let mantissa := (n * 10 ^ Z.of_nat k + f) # Pos.of_nat (10 ^ k) in
              let scaled := (mantissa * Qpower (10 # 1) e)%Q in
              Some (Qred (if negative then - scaled else scaled)%Q, s4)
          end
      end
  end.

(** The characters of a string up to its closing quote. *)
Fixpoint read_string (s : list ascii) : option (string * list ascii) :=
  match s with
  | [] => None
  | c :: r =>
      if Ascii.eqb c quote then Some (EmptyString, r)
      else if Ascii.eqb c backslash then
        match r with
        | e :: r1 =>
            let simple (x : ascii) :=
              match read_string r1 with
              | Some (t, r') => Some (String x t, r')
              | None => None
              end in
            if Ascii.eqb e quote then simple quote
            else if Ascii.eqb e backslash then simple backslash
            else if Ascii.eqb e "/" then simple "/"%char
            else if Ascii.eqb e "b" then simple (ascii_of_nat 8)
            else if Ascii.eqb e "f" then simple (ascii_of_nat 12)
            else if Ascii.eqb e "n" then simple (ascii_of_nat 10)
            else if Ascii.eqb e "r" then simple (ascii_of_nat 13)
            else if Ascii.eqb e "t" then simple (ascii_of_nat 9)
            else if Ascii.eqb e "u" then
              match r1 with
              | h1 :: h2 :: h3 :: h4 :: r2 =>
                  match hex_digit h1, hex_digit h2, hex_digit h3, hex_digit h4 with
                  | Some O, Some O, Some a, Some b =>
                      match read_string r2 with
                      | Some (t, r') => Some (String (ascii_of_nat (16 * a + b)) t, r')
                      | None => None
                      end
                  | _, _, _, _ => None
                  end
              | _ => None
              end
            else None
        | [] => None
        end
      else if (nat_of_ascii c <? 32)%nat then None
      else match read_string r with
           | Some (t, r') => Some (String c t, r')
           | None => None
           end
  end.

Definition starts_with (word : string) (s : list ascii) : option (list ascii) :=
  if is_prefix word (string_of_list_ascii s)
  then Some (skipn (String.length word) s) else None.

Fixpoint read_value (fuel : nat) (s : list ascii) : option (JsValue * list ascii) :=
  match fuel with
  | O => None
  | S fuel' =>
      match skip_ws s with
      | [] => None
      | c :: r =>
          if Ascii.eqb c quote then
            match read_string r with
            | Some (t, r') => Some (JStr t, r')
            | None => None
            end
          else if Ascii.eqb c "[" then
            match skip_ws r with
            | d :: r' =>
                if Ascii.eqb d "]" then Some (JArr [], r')
                else read_elements fuel' r []
            | [] => None
            end
          else if Ascii.eqb c "{" then
            match skip_ws r with
            | d :: r' =>
                if Ascii.eqb d "}" then Some (JObj [], r')
                else read_members fuel' r []
            | [] => None
            end
          else
            match starts_with "null" (c :: r), starts_with "true" (c :: r),
                  starts_with "false" (c :: r) with
            | Some r', _, _ => Some (JNull, r')
            | _, Some r', _ => Some (JBool true, r')
            | _, _, Some r' => Some (JBool false, r')
            | None, None, None =>
                match read_number (c :: r) with
                | Some (q, r') => Some (JNum q, r')
                | None => None
                end
            end
      end
  end
with read_elements (fuel : nat) (s : list ascii) (seen : list JsValue)
  : option (JsValue * list ascii) :=
  match fuel with
  | O => None
  | S fuel' =>
      match read_value fuel' s with
      | Some (v, r) =>
          match skip_ws r with
          | c :: r' =>
              if Ascii.eqb c "," then read_elements fuel' r' (seen ++ [v])
              else if Ascii.eqb c "]" then Some (JArr (seen ++ [v]), r')
              else None
          | [] => None
          end
      | None => None
      end
  end
with read_members (fuel : nat) (s : list ascii) (seen : list (string * JsValue))
  : option (JsValue * list ascii) :=
  match fuel with
  | O => None
  | S fuel' =>
      match skip_ws s with
      | q :: r0 =>
          if Ascii.eqb q quote then
            match read_string r0 with
            | Some (k, r1) =>
                match skip_ws r1 with
                | colon :: r2 =>
                    if Ascii.eqb colon ":" then
                      match read_value fuel' r2 with
                      | Some (v, r3) =>
                          match skip_ws r3 with
                          | c :: r4 =>
                              if Ascii.eqb c "," then read_members fuel' r4 (js_set k v seen)
                              else if Ascii.eqb c "}" then Some (JObj (js_set k v seen), r4)
                              else None
                          | [] => None
                          end
                      | None => None
                      end
                    else None
                | [] => None
                end
            | None => None
            end
          else None
      | [] => None
      end
  end.

Definition SyntaxError : JsError := mkError "SyntaxError" "Unexpected token in JSON".

Definition parse (text : string) : JsValue + JsError :=
  let s := list_ascii_of_string text in
  match read_value (2 * List.length s + 2) s with
  | Some (v, r) =>
      match skip_ws r with
      | [] => inl v
      | _ :: _ => inr SyntaxError
      end
  | None => inr SyntaxError
  end.

End Json.

Definition demo_runtime (reply : string + JsError) : Runtime :=
  {| ImageDataSchema_validate := demo_validate;
     Buffer_from_base64 := demo_bytes;
     Buffer_toString_base64 := demo_text;
     sharp_resize_toBuffer := demo_sharp;
     model_generateContent := fun _ _ => reply;
     JSON_stringify := fun _ => "{}";
     JSON_parse := Json.parse |}.

Definition request_body (image : string) (dict_of_vars : list (string * JsValue)) : JsValue :=
  JObj [("image", JStr image); ("dict_of_vars", JObj dict_of_vars)].

(** The environment in which the model answers [text], or fails with [err]. *)
Definition replying (text : string) : Runtime := demo_runtime (inl text).
Definition failing (err : JsError) : Runtime := demo_runtime (inr err).

(** A PNG image of one white pixel, in base64, and its data URL; the
    request carries a variable [x]. *)
Definition png_base64 : string :=
  "iVBORw0KGgoAAAANSUhEUgAAAAEAAAABCAAAAAA6fptVAAAACklEQVR42mP4DwABAQEAHLCMmQAAAABJRU5ErkJggg==".
Definition png_image : string := "data:image/png;base64," +:+ png_base64.
Definition png_request : JsValue := request_body png_image [("x", JInt 5)].

(** ** Reading a response *)

Definition body_field (k : string) (r : Response) : JsValue :=
  match jsonBody r with
  | JObj members => js_get k members
  | _ => JUndefined
  end.

(** A success: HTTP 200 with status [success]. *)
Definition is_success (r : Response) : Prop :=
  statusCode r = 200 /\ body_field "status" r = JStr "success".

(** A failure: HTTP 400 or 500, and no status [success]. *)
Definition is_failure (r : Response) : Prop :=
  (statusCode r = 400 \/ statusCode r = 500) /\ body_field "status" r <> JStr "success".

(** The [image] member of the validated value. *)
Definition value_image (value : JsValue) : JsValue :=
  match value with
  | JObj members => js_get "image" members
  | _ => JUndefined
  end.

Definition value_dict (value : JsValue) : JsValue :=
  match value with
  | JObj members => js_get "dict_of_vars" members
  | _ => JUndefined
  end.

(** External calls that do work on the image: [sharp] and the model. *)
Definition is_processing (ev : Event) : bool :=
  match ev with
  | SharpResize _ | GenerateContent _ _ => true
  | _ => false
  end.


(** ** What the [try] block of the handler can throw *)

(** [answers] at the end of [analyzeImage]: the parsed reply, or the initial
    empty list when [JSON.parse] threw. *)
Definition answers_of_reply (rt : Runtime) (responseText : string) : JsValue :=
  match JSON_parse rt (clean_response responseText) with
  | inl answers => answers
  | inr _ => JArr []
  end.

(** The expressions of the [try] block that can throw, in their order: the
    destructuring of [value], [image.split], the index into the match,
    [Buffer.from], the [sharp] pipeline, and the call of the model, which
    [analyzeImage] throws again. [thrown rt req_body err] says that one of
    them is reached and throws [err]. *)
Inductive thrown (rt : Runtime) (req_body : JsValue) : JsError -> Prop :=
| thrown_destructuring value err :
    ImageDataSchema_validate rt req_body = (None, value) ->
    outcome (destructure_value value) = inr err ->
    thrown rt req_body err
| thrown_split value fields err :
    ImageDataSchema_validate rt req_body = (None, value) ->
    outcome (destructure_value value) = inl fields ->
    outcome (image_string (fst fields)) = inr err ->
    thrown rt req_body err
| thrown_match value image err :
    ImageDataSchema_validate rt req_body = (None, value) ->
    value_image value = JStr image ->
    outcome (match_group_1 image) = inr err ->
    thrown rt req_body err
| thrown_Buffer_from value image mimeType err :
    ImageDataSchema_validate rt req_body = (None, value) ->
    value_image value = JStr image ->
    match_data_url image = Some mimeType ->
    outcome (Buffer_from rt (nth_error (js_split "," image) 1)) = inr err ->
    thrown rt req_body err
| thrown_sharp value image mimeType base64Data err :
    ImageDataSchema_validate rt req_body = (None, value) ->
    value_image value = JStr image ->
    match_data_url image = Some mimeType ->
    nth_error (js_split "," image) 1 = Some base64Data ->
    sharp_resize_toBuffer rt (Buffer_from_base64 rt base64Data) = inr err ->
    thrown rt req_body err
| thrown_model value image mimeType base64Data processedImage err :
    ImageDataSchema_validate rt req_body = (None, value) ->
    value_image value = JStr image ->
    match_data_url image = Some mimeType ->
    nth_error (js_split "," image) 1 = Some base64Data ->
    sharp_resize_toBuffer rt (Buffer_from_base64 rt base64Data) = inl processedImage ->
    model_generateContent rt prompt_text
      (fileToGenerativePart rt processedImage "image/jpeg") = inr err ->
    thrown rt req_body err.

(** The request gets through to the model, which answers [responseText]. *)
Definition answered (rt : Runtime) (req_body : JsValue) (responseText : string) : Prop :=
  exists value image mimeType base64Data processedImage,
    ImageDataSchema_validate rt req_body = (None, value) /\
    value_image value = JStr image /\
    match_data_url image = Some mimeType /\
    nth_error (js_split "," image) 1 = Some base64Data /\
    sharp_resize_toBuffer rt (Buffer_from_base64 rt base64Data) = inl processedImage /\
    model_generateContent rt prompt_text
      (fileToGenerativePart rt processedImage "image/jpeg") = inl responseText.

(** The two failures: HTTP 400 with the message [Validation failed], HTTP
    500 with the status [failure]. *)
Definition is_validation_failure (r : Response) : Prop :=
  statusCode r = 400 /\ body_field "message" r = JStr "Validation failed".

Definition is_internal_failure (r : Response) : Prop :=
  statusCode r = 500 /\ body_field "status" r = JStr "failure".

(** ** Vocabulary for the properties of the string operations *)

(** [pat] occurs somewhere in [s]. *)
Fixpoint contains (pat s : string) : bool :=
  is_prefix pat s
  || match s with
     | EmptyString => false
     | String _ s' => contains pat s'
     end.

(** The character [c] occurs in [s]. *)
Fixpoint has_char (c : ascii) (s : string) : bool :=
  match s with
  | EmptyString => false
  | String d s' => Ascii.eqb c d || has_char c s'
  end.

(** Every character of [s] satisfies [P]. *)
Fixpoint all_chars (P : ascii -> bool) (s : string) : bool :=
  match s with
  | EmptyString => true
  | String c s' => P c && all_chars P s'
  end.

Definition no_line_terminator (s : string) : bool :=
  all_chars (fun c => negb (is_line_terminator c)) s.

(** [n] times the character [c]. *)
Fixpoint copies (n : nat) (c : ascii) : string :=
  match n with
  | O => EmptyString
  | S n' => String c (copies n' c)
  end.

(** An environment like [demo_runtime] whose schema accepts every body. *)
Definition lenient_runtime (reply : string + JsError) : Runtime :=
  {| ImageDataSchema_validate := fun body => (None, body);
     Buffer_from_base64 := demo_bytes;
     Buffer_toString_base64 := demo_text;
     sharp_resize_toBuffer := demo_sharp;
     model_generateContent := fun _ _ => reply;
     JSON_stringify := fun _ => "{}";
     JSON_parse := Json.parse |}.

(** * Components described by the specification only

    The expression validator and the geometric formula registry belong to the
    Python side of the project ([math_solver.py], [formulas.py]), which is
    not among the sources. They are modelled from the specification. *)

(** The error kinds of section 7. *)
Inductive ErrorKind : Type :=
| InvalidCharacter
| UnbalancedParentheses
| MalformedOperatorSequence
| EmptyGroup
| ConflictingLabel
| UnresolvedVariable
| UnknownShape
| UnsupportedCalculation
| MissingParameter
| InvalidParameter
| SolveBackendError
| BackendUnavailable.

Module Validator.

Definition is_digit (c : ascii) : bool :=
  let n := nat_of_ascii c in (48 <=? n)%nat && (n <=? 57)%nat.

Definition is_letter (c : ascii) : bool :=
  let n := nat_of_ascii c in
  ((65 <=? n)%nat && (n <=? 90)%nat) || ((97 <=? n)%nat && (n <=? 122)%nat).

(** Space, tab, line feed, vertical tab, form feed, carriage return. *)
Definition is_whitespace (c : ascii) : bool :=
  let n := nat_of_ascii c in
  (n =? 32)%nat || ((9 <=? n)%nat && (n <=? 13)%nat).

(** The binary operators [+ - * / ^]. *)
Definition is_operator (c : ascii) : bool :=
  Ascii.eqb c "+" || Ascii.eqb c "-" || Ascii.eqb c "*" || Ascii.eqb c "/"
  || Ascii.eqb c "^".

(** The whitelist of section 3: digits, [+ - * / ^ ( ) . = ,], letters,
    whitespace. *)
Definition allowed (c : ascii) : bool :=
  is_digit c || is_operator c || Ascii.eqb c "(" || Ascii.eqb c ")"
  || Ascii.eqb c "." || Ascii.eqb c "=" || Ascii.eqb c ","
  || is_letter c || is_whitespace c.

(** Check 3: the running depth counter, which must never go negative and
    must be zero at the end. *)
Fixpoint balanced_from (depth : Z) (cs : list ascii) : bool :=
  match cs with
  | [] => depth =? 0
  | c :: rest =>
      if Ascii.eqb c "(" then balanced_from (depth + 1) rest
      else if Ascii.eqb c ")" then
        if depth - 1 <? 0 then false else balanced_from (depth - 1) rest
      else balanced_from depth rest
  end.

(** Check 4: an operator at the end of the string or right before [)], or
    an operator right after an operator unless it is a minus (a unary minus
    may follow another operator). *)
Fixpoint malformed_operators (cs : list ascii) : bool :=
  match cs with
  | [] => false
  | c :: rest =>
      (is_operator c &&
         match rest with
         | [] => true
         | d :: _ => Ascii.eqb d ")" || (is_operator d && negb (Ascii.eqb d "-"))
         end)
      || malformed_operators rest
  end.

(** Check 5: an opening parenthesis directly followed by a closing one. *)
Fixpoint has_empty_group (cs : list ascii) : bool :=
  match cs with
  | [] => false
  | c :: rest =>
      (Ascii.eqb c "(" && match rest with d :: _ => Ascii.eqb d ")" | [] => false end)
      || has_empty_group rest
  end.

(** [Empty] is the failure of check 1, for which the specification names no
    error kind. *)
Inductive Verdict : Type :=
| Ok
| Empty
| Err (kind : ErrorKind).

(** Modelled from the spec: [validate] of section 4.4, the five checks in
    their order, the first failure deciding; the function itself
    ([validate_expression] of math_solver.py) is missing from the sources. *)
Definition validate (expr : string) : Verdict :=
  let cs := list_ascii_of_string expr in
  if forallb is_whitespace cs then Empty
  else if negb (forallb allowed cs) then Err InvalidCharacter
  else if negb (balanced_from 0 cs) then Err UnbalancedParentheses
  else if malformed_operators cs then Err MalformedOperatorSequence
  else if has_empty_group cs then Err EmptyGroup
  else Ok.

(** The words of the specification about the depth counter: what the
    counter is worth after a text, and what it is to be unbalanced. *)
Definition paren_step (c : ascii) : Z :=
  if Ascii.eqb c "(" then 1 else if Ascii.eqb c ")" then -1 else 0.

Fixpoint depth_after (cs : list ascii) : Z :=
  match cs with
  | [] => 0
  | c :: rest => paren_step c + depth_after rest
  end.

Definition goes_negative (cs : list ascii) : Prop :=
  exists n, depth_after (firstn n cs) < 0.

Definition unbalanced (expr : string) : Prop :=
  goes_negative (list_ascii_of_string expr)
  \/ depth_after (list_ascii_of_string expr) <> 0.

End Validator.

Module Formulas.

Inductive CalcType : Type := area | perimeter | volume | surfaceArea.

Definition CalcType_eqb (a b : CalcType) : bool :=
  match a, b with
  | area, area | perimeter, perimeter | volume, volume | surfaceArea, surfaceArea => true
  | _, _ => false
  end.

(** A shape of the catalog; the required parameters are kept in the order of
    the catalog. *)
Record ShapeSpec : Type := mkShape {
  name : string;
  requiredParams : list string;
  calcTypes : list CalcType
}.

Record CalcRequest : Type := mkRequest {
  shapeName : string;
  calcType : CalcType;
  params : gmap string Q
}.

(** A formula that was run, with what it was run on. *)
Record FormulaCall : Type := mkCall {
  call_shape : string;
  call_calcType : CalcType;
  call_params : gmap string Q
}.

Section Registry.
(** The numbers that formulas return. *)
Variable number : Type.
(** The static catalog and the formula table; their contents are not part of
    the specification. *)
Variable catalog : list ShapeSpec.
Variable formula : string -> CalcType -> gmap string Q -> number.
(** Which parameters are angles, and whether an angle is below the full turn
    in the unit that the registry uses. *)
Variable is_angle : string -> bool.
Variable below_full_turn : Q -> bool.

Inductive CalcResult : Type :=
| Value (v : number)
| Failure (kind : ErrorKind) (message : string).

Definition find_shape (shape : string) : option ShapeSpec :=
  List.find (fun s => String.eqb (name s) shape) catalog.

Definition supports (s : ShapeSpec) (c : CalcType) : bool :=
  existsb (CalcType_eqb c) (calcTypes s).

(** The first required parameter that the request does not give. *)
Fixpoint first_missing (required : list string) (ps : gmap string Q) : option string :=
  match required with
  | [] => None
  | p :: rest =>
      match ps !! p with
      | Some _ => first_missing rest ps
      | None => Some p
      end
  end.

(** Why a value is refused for the parameter [p], if it is. *)
Definition refusal (p : string) (v : Q) : option string :=
  if Qle_bool v 0 then Some "must be strictly positive"
  else if is_angle p && negb (below_full_turn v) then Some "angle out of range"
  else None.

(** The first required parameter with a refused value, and the reason. *)
Fixpoint first_invalid (required : list string) (ps : gmap string Q)
  : option (string * string) :=
  match required with
  | [] => None
  | p :: rest =>
      match ps !! p with
      | Some v =>
          match refusal p v with
          | Some reason => Some (p, reason)
          | None => first_invalid rest ps
          end
      | None => first_invalid rest ps
      end
  end.

(** The validation before dispatch, in the order of section 4.6. *)
Definition check_request (req : CalcRequest) : option (ErrorKind * string) :=
  match find_shape (shapeName req) with
  | None => Some (UnknownShape, shapeName req)
  | Some s =>
      if negb (supports s (calcType req)) then Some (UnsupportedCalculation, shapeName req)
      else
        match first_missing (requiredParams s) (params req) with
        | Some p => Some (MissingParameter, p)
        | None =>
            match first_invalid (requiredParams s) (params req) with
            | Some (p, reason) => Some (InvalidParameter, p +:+ ": " +:+ reason)
            | None => None
            end
        end
  end.

(** Modelled from the spec: [calculate] of section 4.6, validation and then
    the lookup of the formula; the function itself ([calculate_shape_property]
    of formulas.py) is missing from the sources. The second component lists
    the formulas that were run. *)
Definition calculate (req : CalcRequest) : CalcResult * list FormulaCall :=
  match check_request req with
  | Some (kind, message) => (Failure kind message, [])
  | None =>
      (Value (formula (shapeName req) (calcType req) (params req)),
       [mkCall (shapeName req) (calcType req) (params req)])
  end.

End Registry.

Arguments Value {number} v.
Arguments Failure {number} kind message.

(** The shapes for which the specification gives a formula or an example:
    rectangle area [l * w], circle area [pi r^2], cylinder surface area
    [2 pi r (r + h)]. *)
Definition spec_catalog : list ShapeSpec :=
  [ mkShape "Rectangle" ["l"; "w"] [area];
    mkShape "Circle" ["r"] [area];
    mkShape "Cylinder" ["r"; "h"] [surfaceArea] ].

Definition param (ps : gmap string Q) (p : string) : R :=
  match ps !! p with
  | Some v => Q2R v
  | None => 0%R
  end.

Definition spec_formula (shape : string) (c : CalcType) (ps : gmap string Q) : R :=
  if String.eqb shape "Rectangle" then (param ps "l" * param ps "w")%R
  else if String.eqb shape "Circle" then (PI * (param ps "r" * param ps "r"))%R
  else (2 * PI * param ps "r" * (param ps "r" + param ps "h"))%R.

(** Degrees: an angle has to stay below 360. *)
Definition below_360 (v : Q) : bool := negb (Qle_bool 360 v).

Definition spec_calculate (req : CalcRequest) : CalcResult R * list FormulaCall :=
  calculate R spec_catalog spec_formula (fun _ => false) below_360 req.

End Formulas.
(** ** Laws of the monad *)

Section MonadLaws.
Context {A B : Type}.

Lemma bind_ret (a : A) (k : A -> M B) : bind (ret a) k = k a.
Proof. unfold bind, ret. destruct (k a) as [r t]. reflexivity. Qed.

Lemma outcome_bind_inl (m : M A) (k : A -> M B) (b : B) :
  outcome (bind m k) = inl b ->
  exists a, outcome m = inl a /\ outcome (k a) = inl b.
Proof.
  destruct m as [[a | e] t]; simpl.
  - destruct (k a) as [r t'] eqn:E. simpl. intros ->.
    exists a. rewrite E. auto.
  - discriminate.
Qed.

Lemma trace_bind (m : M A) (k : A -> M B) :
  trace (bind m k) =
    trace m ++ match outcome m with inl a => trace (k a) | inr _ => [] end.
Proof.
  destruct m as [[a | e] t]; simpl.
  - destruct (k a). reflexivity.
  - symmetry. apply app_nil_r.
Qed.

Lemma in_trace_bind (m : M A) (k : A -> M B) (ev : Event) :
  In ev (trace (bind m k)) ->
  In ev (trace m) \/ exists a, outcome m = inl a /\ In ev (trace (k a)).
Proof.
  rewrite trace_bind. intros H. apply in_app_or in H as [H | H]; [auto |].
  destruct (outcome m) as [a | e]; [eauto | contradiction].
Qed.

Lemma outcome_bind_throws (m : M A) (k : A -> M B) (e : JsError) :
  outcome m = inr e -> outcome (bind m k) = inr e.
Proof.
  destruct m as [[a | e'] t]; unfold outcome; simpl; intros H;
    [discriminate H | injection H as ->; reflexivity].
Qed.

Lemma outcome_bind_returns (m : M A) (k : A -> M B) (a : A) :
  outcome m = inl a -> outcome (bind m k) = outcome (k a).
Proof.
  destruct m as [[a' | e] t]; simpl; [| discriminate].
  intros [= ->]. destruct (k a). reflexivity.
Qed.

End MonadLaws.

Lemma try_catch_returns {A} (m : M A) (h : JsError -> M A) (a : A) :
  outcome m = inl a -> outcome (try_catch m h) = inl a.
Proof. destruct m as [[a' | e] t]; simpl; congruence. Qed.

Lemma try_catch_throws {A} (m : M A) (h : JsError -> M A) (e : JsError) :
  outcome m = inr e -> outcome (try_catch m h) = outcome (h e).
Proof.
  destruct m as [[a' | e'] t]; simpl; [discriminate |].
  intros [= ->]. destruct (h e). reflexivity.
Qed.

(** ** utils.js: what [analyzeImage] does *)

Section AnalyzeImage.
Variable rt : Runtime.
Variables (imageBuffer : Buffer) (dictOfVars : JsValue).

(** The model rejects: the error is logged and thrown again. *)
Lemma analyzeImage_backend_error (err : JsError) :
  model_generateContent rt prompt_text
    (fileToGenerativePart rt imageBuffer "image/jpeg") = inr err ->
  analyzeImage rt imageBuffer dictOfVars =
    (inr err,
     [GenerateContent prompt_text (fileToGenerativePart rt imageBuffer "image/jpeg");
      ConsoleError "Error generating content:" (err_message err)]).
Proof.
  intros H. unfold analyzeImage, generateContent, lift.
  rewrite H. reflexivity.
Qed.

(** The model answers and the cleaned text parses. *)
Lemma analyzeImage_parsed (text : string) (answers : JsValue) :
  model_generateContent rt prompt_text
    (fileToGenerativePart rt imageBuffer "image/jpeg") = inl text ->
  JSON_parse rt (clean_response text) = inl answers ->
  analyzeImage rt imageBuffer dictOfVars =
    (inl answers,
     [GenerateContent prompt_text (fileToGenerativePart rt imageBuffer "image/jpeg");
      ConsoleLog "Response from Gemini:" text]).
Proof.
  intros H1 H2. unfold analyzeImage, generateContent, lift.
  rewrite H1. cbn. rewrite H2. reflexivity.
Qed.

(** The model answers and the cleaned text does not parse: the inner
    [catch] logs twice and the empty list is returned. *)
Lemma analyzeImage_unparsed (text : string) (err : JsError) :
  model_generateContent rt prompt_text
    (fileToGenerativePart rt imageBuffer "image/jpeg") = inl text ->
  JSON_parse rt (clean_response text) = inr err ->
  analyzeImage rt imageBuffer dictOfVars =
    (inl (JArr []),
     [GenerateContent prompt_text (fileToGenerativePart rt imageBuffer "image/jpeg");
      ConsoleLog "Response from Gemini:" text;
      ConsoleError "Error parsing Gemini response:" (err_message err);
      ConsoleError "Cleaned response:" (clean_response text)]).
Proof.
  intros H1 H2. unfold analyzeImage, generateContent, lift.
  rewrite H1. cbn. rewrite H2. reflexivity.
Qed.

(** The trace always starts with the one call to the model. *)
Lemma analyzeImage_trace :
  exists rest,
    trace (analyzeImage rt imageBuffer dictOfVars) =
      GenerateContent prompt_text (fileToGenerativePart rt imageBuffer "image/jpeg") :: rest /\
    Forall (fun ev => is_processing ev = false) rest.
Proof.
  destruct (model_generateContent rt prompt_text
    (fileToGenerativePart rt imageBuffer "image/jpeg")) as [text | err] eqn:H1.
  - destruct (JSON_parse rt (clean_response text)) as [answers | err] eqn:H2.
    + rewrite (analyzeImage_parsed _ _ H1 H2). eexists.
      split; [reflexivity |]. repeat constructor.
    + rewrite (analyzeImage_unparsed _ _ H1 H2). eexists.
      split; [reflexivity |]. repeat constructor.
  - rewrite (analyzeImage_backend_error _ H1). eexists.
    split; [reflexivity |]. repeat constructor.
Qed.

(** It throws only what the model threw. *)
Lemma analyzeImage_throws (err : JsError) :
  outcome (analyzeImage rt imageBuffer dictOfVars) = inr err ->
  model_generateContent rt prompt_text
    (fileToGenerativePart rt imageBuffer "image/jpeg") = inr err.
Proof.
  destruct (model_generateContent rt prompt_text
    (fileToGenerativePart rt imageBuffer "image/jpeg")) as [text | err'] eqn:H1.
  - destruct (JSON_parse rt (clean_response text)) as [answers | err''] eqn:H2.
    + rewrite (analyzeImage_parsed _ _ H1 H2). discriminate.
    + rewrite (analyzeImage_unparsed _ _ H1 H2). discriminate.
  - rewrite (analyzeImage_backend_error _ H1). simpl. congruence.
Qed.

End AnalyzeImage.

(** ** route.js: the paths through the handler *)

Section Handler.
Variable rt : Runtime.
Variable req_body : JsValue.

Local Arguments analyzeImage : simpl never.

Lemma destructure_value_trace (value : JsValue) : trace (destructure_value value) = [].
Proof. destruct value; reflexivity. Qed.

Lemma image_string_trace (image : JsValue) : trace (image_string image) = [].
Proof. destruct image; reflexivity. Qed.

Lemma match_group_1_trace (image : string) : trace (match_group_1 image) = [].
Proof. unfold match_group_1. destruct (match_data_url image); reflexivity. Qed.

Lemma Buffer_from_trace (d : option string) : trace (Buffer_from rt d) = [].
Proof. destruct d; reflexivity. Qed.

Lemma sharp_trace (b : Buffer) : trace (sharp rt b) = [SharpResize b].
Proof. unfold sharp, lift. simpl. destruct (sharp_resize_toBuffer rt b); reflexivity. Qed.

(** The schema reports an error: the 400 response, and nothing else happens. *)
Lemma handler_validation_error (error : ValidationError) (value : JsValue) :
  ImageDataSchema_validate rt req_body = (Some error, value) ->
  handler rt req_body = (inl (validation_failed error), []).
Proof. intros H. unfold handler, handler_try. rewrite H. reflexivity. Qed.

(** The try block returns only the 400 or the 200 response. *)
Lemma handler_try_returns (resp : Response) :
  outcome (handler_try rt req_body) = inl resp ->
  (exists error value,
      ImageDataSchema_validate rt req_body = (Some error, value) /\
      resp = validation_failed error) \/
  (exists value responses,
      ImageDataSchema_validate rt req_body = (None, value) /\
      resp = processed_successfully responses).
Proof.
  unfold handler_try.
  destruct (ImageDataSchema_validate rt req_body) as [[error |] value].
  - simpl. intros [= <-]. left. eauto.
  - intros H. right.
    repeat (apply outcome_bind_inl in H as (? & _ & H)).
    simpl in H. injection H as <-. eauto.
Qed.

(** Whatever the try block throws becomes the 500 response. *)
Lemma handler_catches (err : JsError) :
  outcome (handler_try rt req_body) = inr err ->
  outcome (handler rt req_body) = inl (internal_server_error err).
Proof.
  intros H. unfold handler. rewrite (try_catch_throws _ _ _ H). reflexivity.
Qed.

Lemma handler_passes (resp : Response) :
  outcome (handler_try rt req_body) = inl resp ->
  outcome (handler rt req_body) = inl resp.
Proof. apply try_catch_returns. Qed.

(** The handler always answers, with one of its three responses. *)
Lemma handler_response_cases :
  exists resp,
    outcome (handler rt req_body) = inl resp /\
    ((exists error, resp = validation_failed error) \/
     (exists responses, resp = processed_successfully responses) \/
     (exists err, resp = internal_server_error err)).
Proof.
  destruct (outcome (handler_try rt req_body)) as [resp | err] eqn:E.
  - exists resp. split; [apply handler_passes, E |].
    destruct (handler_try_returns _ E) as [(e & v & _ & ->) | (v & r & _ & ->)]; eauto.
  - exists (internal_server_error err). split; [apply handler_catches, E | eauto].
Qed.

(** The image is a string without a match for the data-URL pattern. *)
Lemma handler_no_match (value : JsValue) (image : string) :
  ImageDataSchema_validate rt req_body = (None, value) ->
  value_image value = JStr image ->
  match_data_url image = None ->
  handler rt req_body =
    (inl (internal_server_error
            (TypeError "Cannot read properties of null (reading '1')")),
     [ConsoleError "Error in /calculate route:"
        "Cannot read properties of null (reading '1')"]).
Proof.
  intros Hv Hi Hm. unfold handler, handler_try. rewrite Hv.
  destruct value; try discriminate Hi. simpl in Hi.
  cbn. rewrite Hi. cbn. unfold match_group_1. rewrite Hm. reflexivity.
Qed.

(** The request gets as far as the call of [sharp]. *)
Lemma handler_try_reaches_sharp (value : JsValue) (image mimeType base64Data : string) :
  ImageDataSchema_validate rt req_body = (None, value) ->
  value_image value = JStr image ->
  match_data_url image = Some mimeType ->
  nth_error (js_split "," image) 1 = Some base64Data ->
  handler_try rt req_body =
    bind (sharp rt (Buffer_from_base64 rt base64Data))
      (fun processedImage =>
         bind (analyzeImage rt processedImage (value_dict value))
           (fun responses => ret (processed_successfully responses))).
Proof.
  intros Hv Hi Hm Hd. unfold handler_try. rewrite Hv.
  destruct value; try discriminate Hi. simpl in Hi.
  unfold destructure_value. rewrite bind_ret. cbn [fst snd]. rewrite Hi.
  unfold image_string. rewrite bind_ret.
  unfold match_group_1. rewrite Hm, bind_ret.
  rewrite Hd. unfold Buffer_from. rewrite bind_ret. reflexivity.
Qed.

(** [sharp] rejects. *)
Lemma handler_try_sharp_error (value : JsValue) (image mimeType base64Data : string)
    (err : JsError) :
  ImageDataSchema_validate rt req_body = (None, value) ->
  value_image value = JStr image ->
  match_data_url image = Some mimeType ->
  nth_error (js_split "," image) 1 = Some base64Data ->
  sharp_resize_toBuffer rt (Buffer_from_base64 rt base64Data) = inr err ->
  handler_try rt req_body = (inr err, [SharpResize (Buffer_from_base64 rt base64Data)]).
Proof.
  intros Hv Hi Hm Hd Hs. rewrite (handler_try_reaches_sharp _ _ _ _ Hv Hi Hm Hd).
  unfold sharp, lift. cbn. rewrite Hs. reflexivity.
Qed.

(** [sharp] succeeds: the rest is [analyzeImage] on the resized image. *)
Lemma handler_try_reaches_backend (value : JsValue) (image mimeType base64Data : string)
    (processedImage : Buffer) :
  ImageDataSchema_validate rt req_body = (None, value) ->
  value_image value = JStr image ->
  match_data_url image = Some mimeType ->
  nth_error (js_split "," image) 1 = Some base64Data ->
  sharp_resize_toBuffer rt (Buffer_from_base64 rt base64Data) = inl processedImage ->
  handler_try rt req_body =
    (match outcome (analyzeImage rt processedImage (value_dict value)) with
     | inl responses => inl (processed_successfully responses)
     | inr err => inr err
     end,
     SharpResize (Buffer_from_base64 rt base64Data)
       :: trace (analyzeImage rt processedImage (value_dict value))).
Proof.
  intros Hv Hi Hm Hd Hs. rewrite (handler_try_reaches_sharp _ _ _ _ Hv Hi Hm Hd).
  unfold sharp, lift. cbn. rewrite Hs. cbn.
  destruct (analyzeImage rt processedImage (value_dict value)) as [[r | e] t]; cbn.
  - rewrite app_nil_r. reflexivity.
  - reflexivity.
Qed.

(** Every call of the model in a trace of the handler is the one call that
    [analyzeImage] makes, on some buffer. *)
Lemma handler_generate_event (prompt : string) (part : GenerativePart) :
  In (GenerateContent prompt part) (trace (handler rt req_body)) ->
  prompt = prompt_text /\
  exists processedImage, part = fileToGenerativePart rt processedImage "image/jpeg".
Proof.
  intros H.
  assert (Ht : In (GenerateContent prompt part) (trace (handler_try rt req_body))).
  { unfold handler, try_catch in H.
    destruct (handler_try rt req_body) as [[r | e] t]; [exact H |].
    simpl in H. apply in_app_or in H as [H | [H | []]]; [exact H | discriminate]. }
  clear H. unfold handler_try in Ht.
  destruct (ImageDataSchema_validate rt req_body) as [[error |] value];
    [contradiction |].
  apply in_trace_bind in Ht as [Ht | (fields & _ & Ht)];
    [rewrite destructure_value_trace in Ht; contradiction |].
  apply in_trace_bind in Ht as [Ht | (image & _ & Ht)];
    [rewrite image_string_trace in Ht; contradiction |].
  apply in_trace_bind in Ht as [Ht | (mimeType & _ & Ht)];
    [rewrite match_group_1_trace in Ht; contradiction |].
  apply in_trace_bind in Ht as [Ht | (imageBuffer & _ & Ht)];
    [rewrite Buffer_from_trace in Ht; contradiction |].
  apply in_trace_bind in Ht as [Ht | (processedImage & _ & Ht)];
    [rewrite sharp_trace in Ht; destruct Ht as [Ht | []]; discriminate |].
  apply in_trace_bind in Ht as [Ht | (responses & _ & Ht)]; [| contradiction].
  destruct (analyzeImage_trace rt processedImage (snd fields)) as (rest & E & Hrest).
  rewrite E in Ht. destruct Ht as [Ht | Ht].
  - injection Ht as <- <-. eauto.
  - rewrite List.Forall_forall in Hrest. apply Hrest in Ht. discriminate.
Qed.

(** The destructuring and the receiver of [split] succeed exactly on a
    value whose [image] is a string. *)
Lemma value_image_destructured (value : JsValue) (image : string) :
  value_image value = JStr image ->
  exists dict_of_vars,
    outcome (destructure_value value) = inl (JStr image, dict_of_vars).
Proof.
  destruct value; simpl; try discriminate. intros ->. eauto.
Qed.

Lemma destructured_value_image (value : JsValue) (fields : JsValue * JsValue)
    (image : string) :
  outcome (destructure_value value) = inl fields ->
  outcome (image_string (fst fields)) = inl image ->
  value_image value = JStr image.
Proof.
  destruct value; simpl; try discriminate; intros [= <-]; simpl; try discriminate.
  destruct (js_get "image" members); simpl; try discriminate.
  intros [= ->]. reflexivity.
Qed.

(** Each of the throwing expressions, once reached, ends the [try] block. *)
Lemma handler_try_throws (err : JsError) :
  thrown rt req_body err -> outcome (handler_try rt req_body) = inr err.
Proof.
  intros [value err' Hv H
         | value fields err' Hv Hf H
         | value image err' Hv Hi H
         | value image mimeType err' Hv Hi Hm H
         | value image mimeType d err' Hv Hi Hm Hd H
         | value image mimeType d processed err' Hv Hi Hm Hd Hs H].
  - unfold handler_try. rewrite Hv. apply outcome_bind_throws, H.
  - unfold handler_try. rewrite Hv.
    rewrite (outcome_bind_returns _ _ _ Hf). apply outcome_bind_throws, H.
  - destruct (value_image_destructured _ _ Hi) as [dict Hf].
    unfold handler_try. rewrite Hv.
    rewrite (outcome_bind_returns _ _ _ Hf). cbn [fst snd image_string].
    rewrite bind_ret. apply outcome_bind_throws, H.
  - destruct (value_image_destructured _ _ Hi) as [dict Hf].
    unfold handler_try. rewrite Hv.
    rewrite (outcome_bind_returns _ _ _ Hf). cbn [fst snd image_string].
    rewrite bind_ret. unfold match_group_1. rewrite Hm, bind_ret.
    apply outcome_bind_throws, H.
  - rewrite (handler_try_sharp_error _ _ _ _ _ Hv Hi Hm Hd H). reflexivity.
  - rewrite (handler_try_reaches_backend _ _ _ _ _ Hv Hi Hm Hd Hs).
    rewrite (analyzeImage_backend_error _ _ _ _ H). reflexivity.
Qed.

(** A request that gets through to the model, and is answered, succeeds
    with the answers that [analyzeImage] returns. *)
Lemma handler_try_answered (text : string) :
  answered rt req_body text ->
  outcome (handler_try rt req_body)
  = inl (processed_successfully (answers_of_reply rt text)).
Proof.
  intros (value & image & mimeType & d & processed & Hv & Hi & Hm & Hd & Hs & Hg).
  rewrite (handler_try_reaches_backend _ _ _ _ _ Hv Hi Hm Hd Hs).
  unfold answers_of_reply.
  destruct (JSON_parse rt (clean_response text)) as [answers | err] eqn:Hp.
  - rewrite (analyzeImage_parsed _ _ _ _ _ Hg Hp). reflexivity.
  - rewrite (analyzeImage_unparsed _ _ _ _ _ Hg Hp). reflexivity.
Qed.

(** The [try] block ends in one of three ways: with the 400 response when
    the schema reports an error, by a throw of one of the expressions
    above, or with the 200 response carrying the answers. *)
Lemma handler_try_cases :
  (exists error value,
      ImageDataSchema_validate rt req_body = (Some error, value) /\
      outcome (handler_try rt req_body) = inl (validation_failed error))
  \/ (exists err,
        thrown rt req_body err /\
        outcome (handler_try rt req_body) = inr err)
  \/ (exists text,
        answered rt req_body text /\
        outcome (handler_try rt req_body)
        = inl (processed_successfully (answers_of_reply rt text))).
Proof.
  destruct (ImageDataSchema_validate rt req_body) as [[error |] value] eqn:Hv.
  { left. exists error, value. split; [reflexivity |].
    unfold handler_try. rewrite Hv. reflexivity. }
  right.
  assert (stop : forall err, thrown rt req_body err ->
            exists err, thrown rt req_body err /\
                        outcome (handler_try rt req_body) = inr err)
    by (intros err H; exists err; split; [exact H | apply handler_try_throws, H]).
  destruct (outcome (destructure_value value)) as [fields | err] eqn:Hf;
    [| left; apply (stop err), (thrown_destructuring _ _ _ _ Hv Hf)].
  destruct (outcome (image_string (fst fields))) as [image | err] eqn:Hs;
    [| left; apply (stop err), (thrown_split _ _ _ _ _ Hv Hf Hs)].
  pose proof (destructured_value_image _ _ _ Hf Hs) as Hi.
  destruct (match_data_url image) as [mimeType |] eqn:Hm.
  2:{ left. apply (stop (TypeError "Cannot read properties of null (reading '1')")).
      apply (thrown_match _ _ _ _ _ Hv Hi). unfold match_group_1. rewrite Hm. reflexivity. }
  destruct (nth_error (js_split "," image) 1) as [d |] eqn:Hd.
  2:{ left. destruct (Buffer_from rt None) as [[b | err] t] eqn:Hb; [discriminate Hb |].
      apply (stop err), (thrown_Buffer_from _ _ _ _ _ _ Hv Hi Hm).
      rewrite Hd, Hb. reflexivity. }
  destruct (sharp_resize_toBuffer rt (Buffer_from_base64 rt d)) as [processed | err] eqn:Hsh;
    [| left; apply (stop err), (thrown_sharp _ _ _ _ _ _ _ Hv Hi Hm Hd Hsh)].
  destruct (model_generateContent rt prompt_text
              (fileToGenerativePart rt processed "image/jpeg")) as [text | err] eqn:Hg;
    [| left; apply (stop err), (thrown_model _ _ _ _ _ _ _ _ Hv Hi Hm Hd Hsh Hg)].
  right. exists text.
  assert (Ha : answered rt req_body text)
    by (exists value, image, mimeType, d, processed; repeat split; assumption).
  split; [exact Ha | apply handler_try_answered, Ha].
Qed.

(** The same for the handler, whose [catch] turns a throw into the 500
    response. *)
Lemma handler_cases :
  (exists error value,
      ImageDataSchema_validate rt req_body = (Some error, value) /\
      outcome (handler rt req_body) = inl (validation_failed error))
  \/ (exists err,
        thrown rt req_body err /\
        outcome (handler rt req_body) = inl (internal_server_error err))
  \/ (exists text,
        answered rt req_body text /\
        outcome (handler rt req_body)
        = inl (processed_successfully (answers_of_reply rt text))).
Proof.
  destruct handler_try_cases
    as [(error & value & Hv & H) | [(err & Ht & H) | (text & Ha & H)]].
  - left. exists error, value. split; [exact Hv | apply handler_passes, H].
  - right. left. exists err. split; [exact Ht | apply handler_catches, H].
  - right. right. exists text. split; [exact Ha | apply handler_passes, H].
Qed.

End Handler.

(** ** Concrete requests *)

Example png_declared_type : match_data_url png_image = Some "image/png".
Proof. reflexivity. Qed.

Example png_payload : nth_error (js_split "," png_image) 1 = Some png_base64.
Proof. reflexivity. Qed.

Example clean_markdown_reply :
  clean_response "```json[{'expr': 'x', 'result': 2, 'assign': True}]```"
  = "[{" +:+ dq +:+ "expr" +:+ dq +:+ ": " +:+ dq +:+ "x" +:+ dq +:+ ", "
      +:+ dq +:+ "result" +:+ dq +:+ ": 2, "
      +:+ dq +:+ "assign" +:+ dq +:+ ": true}]".
Proof. reflexivity. Qed.

(** A reply in a Markdown fence with Python quoting is cleaned, parsed and
    sent back as the data of a success. *)
Example fenced_reply_is_parsed :
  outcome (handler (replying "```json[{'expr': '2 + 3 * 4', 'result': 14}]```") png_request)
  = inl (processed_successfully
           (JArr [JObj [("expr", JStr "2 + 3 * 4"); ("result", JInt 14)]])).
Proof. reflexivity. Qed.

Example fenced_reply_trace :
  trace (handler (replying "```json[]```") png_request)
  = [SharpResize (demo_bytes png_base64);
     GenerateContent prompt_text
       (mkPart (demo_text (demo_bytes png_base64)) "image/jpeg");
     ConsoleLog "Response from Gemini:" "```json[]```"].
Proof. reflexivity. Qed.

(** The dictionary never reaches the prompt: the template has no placeholder. *)
Lemma analyzeImage_ignores_dictOfVars (rt : Runtime) (imageBuffer : Buffer)
    (dict1 dict2 : JsValue) :
  analyzeImage rt imageBuffer dict1 = analyzeImage rt imageBuffer dict2.
Proof. reflexivity. Qed.

(** X1. The variables of the user have no effect: two accepted requests with the
    same image are handled alike whatever their dictionaries, and the prompt
    of every call of the model is the fixed text. *)
Theorem dictionary_has_no_effect
    (rt : Runtime) (body1 body2 value1 value2 : JsValue)
    (image mimeType base64Data : string) :
  ImageDataSchema_validate rt body1 = (None, value1) ->
  ImageDataSchema_validate rt body2 = (None, value2) ->
  value_image value1 = JStr image ->
  value_image value2 = JStr image ->
  match_data_url image = Some mimeType ->
  nth_error (js_split "," image) 1 = Some base64Data ->
  handler rt body1 = handler rt body2 /\
  (forall prompt part,
      In (GenerateContent prompt part) (trace (handler rt body1)) ->
      prompt = prompt_text).
Proof.
  intros Hv1 Hv2 Hi1 Hi2 Hm Hd. split.
  - unfold handler.
    rewrite (handler_try_reaches_sharp _ _ _ _ _ _ Hv1 Hi1 Hm Hd).
    rewrite (handler_try_reaches_sharp _ _ _ _ _ _ Hv2 Hi2 Hm Hd).
    f_equal.
  - intros prompt part H. apply (handler_generate_event _ _ _ _ H).
Qed.

(** The same drawing with [x = 5] and with [x = 7]. *)
Lemma dictionary_witness :
  handler (replying "[]") (request_body png_image [("x", JInt 5)])
  = handler (replying "[]") (request_body png_image [("x", JInt 7)]).
Proof.
  exact (proj1 (dictionary_has_no_effect (replying "[]")
           (request_body png_image [("x", JInt 5)])
           (request_body png_image [("x", JInt 7)])
           (request_body png_image [("x", JInt 5)])
           (request_body png_image [("x", JInt 7)])
           png_image "image/png" png_base64
           eq_refl eq_refl eq_refl eq_refl eq_refl eq_refl)).
Defined.

(** ** The claims about the route *)

(** C2. When [ImageDataSchema.validate] reports an error, the handler answers
    with the 400 validation failure at once: no call of [sharp] and no call of
    the model (through [analyzeImage]) is made; the trace of the request is
    empty. *)
Theorem validation_error_answers_before_processing
    (rt : Runtime) (req_body : JsValue) (error : ValidationError) (value : JsValue) :
  ImageDataSchema_validate rt req_body = (Some error, value) ->
  outcome (handler rt req_body) = inl (validation_failed error) /\
  is_failure (validation_failed error) /\
  trace (handler rt req_body) = [] /\
  Forall (fun ev => is_processing ev = false) (trace (handler rt req_body)).
Proof.
  intros H. rewrite (handler_validation_error _ _ _ _ H).
  repeat split; [left; reflexivity | discriminate | constructor].
Qed.

(** A body without an image, against the schema that asks for one. *)
Lemma validation_error_witness :
  ImageDataSchema_validate (replying "[]") (JObj [("dict_of_vars", JObj [])])
    = (Some (mkValidationError (JArr [JStr "image must be a string"])),
       JObj [("dict_of_vars", JObj [])]) /\
  outcome (handler (replying "[]") (JObj [("dict_of_vars", JObj [])]))
    = inl (validation_failed (mkValidationError (JArr [JStr "image must be a string"]))) /\
  trace (handler (replying "[]") (JObj [("dict_of_vars", JObj [])])) = [].
Proof.
  split; [reflexivity |].
  destruct (validation_error_answers_before_processing
              (replying "[]") (JObj [("dict_of_vars", JObj [])])
              (mkValidationError (JArr [JStr "image must be a string"]))
              (JObj [("dict_of_vars", JObj [])]) eq_refl) as (H1 & _ & H2 & _).
  split; [exact H1 | exact H2].
Defined.

(** C9. Every call of the generative model made while a request is handled
    carries the MIME type [image/jpeg], whatever type the data URL declares;
    and the declared type has no influence at all: two accepted requests with
    the same payload after the comma and the same dictionary are handled
    alike. *)
Theorem backend_mime_type_is_jpeg (rt : Runtime) :
  (forall req_body prompt part,
      In (GenerateContent prompt part) (trace (handler rt req_body)) ->
      inline_mimeType part = "image/jpeg") /\
  (forall body1 body2 value1 value2 image1 image2 mime1 mime2 base64Data,
      ImageDataSchema_validate rt body1 = (None, value1) ->
      ImageDataSchema_validate rt body2 = (None, value2) ->
      value_image value1 = JStr image1 ->
      value_image value2 = JStr image2 ->
      match_data_url image1 = Some mime1 ->
      match_data_url image2 = Some mime2 ->
      nth_error (js_split "," image1) 1 = Some base64Data ->
      nth_error (js_split "," image2) 1 = Some base64Data ->
      value_dict value1 = value_dict value2 ->
      handler rt body1 = handler rt body2).
Proof.
  split.
  - intros req_body prompt part H.
    destruct (handler_generate_event _ _ _ _ H) as (_ & buf & ->). reflexivity.
  - intros body1 body2 value1 value2 image1 image2 mime1 mime2 d
      Hv1 Hv2 Hi1 Hi2 Hm1 Hm2 Hd1 Hd2 Hdict.
    unfold handler.
    rewrite (handler_try_reaches_sharp _ _ _ _ _ _ Hv1 Hi1 Hm1 Hd1).
    rewrite (handler_try_reaches_sharp _ _ _ _ _ _ Hv2 Hi2 Hm2 Hd2).
    rewrite Hdict. reflexivity.
Qed.

(** A PNG upload reaches the model as [image/jpeg]. *)
Lemma backend_mime_type_witness :
  match_data_url png_image = Some "image/png" /\
  In (GenerateContent prompt_text
        (mkPart (demo_text (demo_bytes png_base64)) "image/jpeg"))
     (trace (handler (replying "[]") png_request)) /\
  inline_mimeType (mkPart (demo_text (demo_bytes png_base64)) "image/jpeg")
    = "image/jpeg".
Proof.
  split; [reflexivity |].
  assert (H : In (GenerateContent prompt_text
                    (mkPart (demo_text (demo_bytes png_base64)) "image/jpeg"))
                 (trace (handler (replying "[]") png_request))).
  { vm_compute. right. left. reflexivity. }
  split; [exact H |].
  exact (proj1 (backend_mime_type_is_jpeg (replying "[]")) png_request _ _ H).
Defined.

(** C10. A body that passes the schema and whose image is a string without a
    match for [^data:(.+);base64]: indexing the [null] match throws a
    TypeError, and the caller gets the 500 failure, not the 400 one; neither
    [sharp] nor the model is called. *)
Theorem unmatched_image_is_internal_server_error
    (rt : Runtime) (req_body value : JsValue) (image : string) :
  ImageDataSchema_validate rt req_body = (None, value) ->
  value_image value = JStr image ->
  match_data_url image = None ->
  exists resp,
    outcome (handler rt req_body) = inl resp /\
    resp = internal_server_error
             (TypeError "Cannot read properties of null (reading '1')") /\
    statusCode resp = 500 /\
    statusCode resp <> 400 /\
    body_field "message" resp = JStr "Internal server error" /\
    body_field "status" resp = JStr "failure" /\
    Forall (fun ev => is_processing ev = false) (trace (handler rt req_body)).
Proof.
  intros Hv Hi Hm. rewrite (handler_no_match _ _ _ _ Hv Hi Hm).
  eexists. split; [reflexivity |].
  repeat split; [discriminate | repeat constructor].
Qed.

(** An image that is plain text. *)
Lemma unmatched_image_witness :
  match_data_url "iVBORw0KGgo=" = None /\
  exists resp,
    outcome (handler (replying "[]") (request_body "iVBORw0KGgo=" [])) = inl resp /\
    statusCode resp = 500.
Proof.
  split; [reflexivity |].
  destruct (unmatched_image_is_internal_server_error
              (replying "[]") (request_body "iVBORw0KGgo=" [])
              (request_body "iVBORw0KGgo=" []) "iVBORw0KGgo="
              eq_refl eq_refl eq_refl) as (resp & H1 & _ & H2 & _).
  exists resp. split; [exact H1 | exact H2].
Defined.

(** A success is no failure. *)
Lemma processed_successfully_is_success (responses : JsValue) :
  is_success (processed_successfully responses) /\
  ~ is_failure (processed_successfully responses).
Proof.
  split; [split; reflexivity |].
  intros [[H | H] _]; discriminate H.
Qed.


Lemma internal_server_error_shape (err : JsError) :
  is_internal_failure (internal_server_error err) /\
  ~ is_validation_failure (internal_server_error err) /\
  ~ is_success (internal_server_error err).
Proof.
  split; [split; reflexivity |]. split; intros [H _]; discriminate H.
Qed.






(** When the four expressions on the image throw. *)
Lemma destructure_value_throws (value : JsValue) :
  value = JUndefined \/ value = JNull ->
  exists message, outcome (destructure_value value) = inr (TypeError message).
Proof. intros [-> | ->]; eexists; reflexivity. Qed.

Lemma image_string_throws (image : JsValue) :
  (forall s, image <> JStr s) ->
  exists message, outcome (image_string image) = inr (TypeError message).
Proof.
  intros H. destruct image; try (eexists; reflexivity).
  exfalso. apply (H s). reflexivity.
Qed.

Lemma match_group_1_throws (image : string) :
  match_data_url image = None ->
  outcome (match_group_1 image)
  = inr (TypeError "Cannot read properties of null (reading '1')").
Proof. intros H. unfold match_group_1. rewrite H. reflexivity. Qed.

Lemma Buffer_from_throws (rt : Runtime) :
  exists message, outcome (Buffer_from rt None) = inr (TypeError message).
Proof. eexists. reflexivity. Qed.

(** C3 (as the code has it). No error escapes the handler: it always
    answers. Every error thrown in the [try] block is caught by the
    handler and becomes the 500 failure carrying the message of the error:
    the TypeError of the destructuring of a missing value, of [split] on an
    image that is not a string, of the index into a failed match, of
    [Buffer.from] without a payload, the rejection of [sharp], and the
    rejection of the model, which [analyzeImage] logs and throws again;
    nothing else is thrown there, and a 500 answer always comes from one of
    them. The one error that is not mapped to a failure is a failed
    [JSON.parse] of the model's reply, which [analyzeImage] catches itself,
    returning the empty list. *)
Theorem errors_reaching_the_handler_become_failures (rt : Runtime) (req_body : JsValue) :
  (exists resp, outcome (handler rt req_body) = inl resp) /\
  (forall err,
      thrown rt req_body err ->
      outcome (handler_try rt req_body) = inr err /\
      outcome (handler rt req_body) = inl (internal_server_error err) /\
      is_internal_failure (internal_server_error err) /\
      body_field "error" (internal_server_error err) = JStr (err_message err)) /\
  (forall err,
      outcome (handler_try rt req_body) = inr err -> thrown rt req_body err) /\
  (forall resp,
      outcome (handler rt req_body) = inl resp ->
      statusCode resp = 500 ->
      exists err, thrown rt req_body err /\ resp = internal_server_error err) /\
  ((forall value,
       value = JUndefined \/ value = JNull ->
       exists message, outcome (destructure_value value) = inr (TypeError message)) /\
   (forall image,
       (forall s, image <> JStr s) ->
       exists message, outcome (image_string image) = inr (TypeError message)) /\
   (forall image,
       match_data_url image = None ->
       outcome (match_group_1 image)
       = inr (TypeError "Cannot read properties of null (reading '1')")) /\
   (exists message, outcome (Buffer_from rt None) = inr (TypeError message)) /\
   (forall imageBuffer dictOfVars err,
       model_generateContent rt prompt_text
         (fileToGenerativePart rt imageBuffer "image/jpeg") = inr err ->
       outcome (analyzeImage rt imageBuffer dictOfVars) = inr err)) /\
  (forall imageBuffer dictOfVars text err,
      model_generateContent rt prompt_text
        (fileToGenerativePart rt imageBuffer "image/jpeg") = inl text ->
      JSON_parse rt (clean_response text) = inr err ->
      outcome (analyzeImage rt imageBuffer dictOfVars) = inl (JArr [])).
Proof.
  split; [| split; [| split; [| split; [| split]]]].
  - destruct (handler_response_cases rt req_body) as (resp & H & _). eauto.
  - intros err H. pose proof (handler_try_throws _ _ _ H) as Ht.
    split; [exact Ht |]. split; [apply handler_catches, Ht |].
    split; [apply internal_server_error_shape | reflexivity].
  - intros err H.
    destruct (handler_try_cases rt req_body)
      as [(error & value & _ & E) | [(err' & Ht & E) | (text & _ & E)]];
      rewrite E in H; try discriminate H.
    injection H as <-. exact Ht.
  - intros resp H Hcode.
    destruct (handler_cases rt req_body)
      as [(error & value & _ & E) | [(err & Ht & E) | (text & _ & E)]];
      rewrite E in H; injection H as <-; try discriminate Hcode.
    exists err. split; [exact Ht | reflexivity].
  - split; [apply destructure_value_throws |].
    split; [apply image_string_throws |].
    split; [apply match_group_1_throws |].
    split; [apply Buffer_from_throws |].
    intros buf dict err Hg.
    rewrite (analyzeImage_backend_error _ _ _ _ Hg). reflexivity.
  - intros buf dict text err Hg Hp.
    rewrite (analyzeImage_unparsed _ _ _ _ _ Hg Hp). reflexivity.
Qed.

(** The model is unreachable: the handler answers 500 with the error's message. *)
Lemma backend_error_witness :
  thrown (failing (mkError "Error" "fetch failed")) png_request
    (mkError "Error" "fetch failed") /\
  outcome (handler (failing (mkError "Error" "fetch failed")) png_request)
    = inl (internal_server_error (mkError "Error" "fetch failed")).
Proof.
  assert (Ht : thrown (failing (mkError "Error" "fetch failed")) png_request
                 (mkError "Error" "fetch failed"))
    by (apply (thrown_model _ _ png_request png_image "image/png" png_base64
                 (demo_bytes png_base64)); reflexivity).
  split; [exact Ht |].
  exact (proj1 (proj2 (proj1 (proj2 (errors_reaching_the_handler_become_failures
           (failing (mkError "Error" "fetch failed")) png_request))
           (mkError "Error" "fetch failed") Ht))).
Defined.

(** C3 fails as stated: [JSON.parse] throws while the reply is processed (the
    trace shows the logged error), and the caller gets a success. *)
Lemma parse_error_is_not_mapped_to_a_failure :
  JSON_parse (replying "```json {expr: 2 + 2} ```")
    (clean_response "```json {expr: 2 + 2} ```")
    = inr Json.SyntaxError /\
  In (ConsoleError "Error parsing Gemini response:" "Unexpected token in JSON")
     (trace (handler (replying "```json {expr: 2 + 2} ```") png_request)) /\
  outcome (handler (replying "```json {expr: 2 + 2} ```") png_request)
    = inl (processed_successfully (JArr [])) /\
  ~ is_failure (processed_successfully (JArr [])).
Proof.
  split; [reflexivity |]. split; [vm_compute; tauto |].
  split; [reflexivity |]. apply processed_successfully_is_success.
Qed.

(** C4 (as the code has it). The response of every request has a status of
    [success] or [failure], or, for the 400 validation failure, no status
    field; every failure carries a message, [Validation failed] or
    [Internal server error]; no response has an [errorKind] field. *)
Theorem response_status_and_message (rt : Runtime) (req_body : JsValue) :
  exists resp,
    outcome (handler rt req_body) = inl resp /\
    ((statusCode resp = 200 /\ body_field "status" resp = JStr "success") \/
     (statusCode resp = 500 /\ body_field "status" resp = JStr "failure") \/
     (statusCode resp = 400 /\ body_field "status" resp = JUndefined)) /\
    (is_failure resp ->
       body_field "message" resp = JStr "Validation failed" \/
       body_field "message" resp = JStr "Internal server error") /\
    body_field "errorKind" resp = JUndefined.
Proof.
  destruct (handler_response_cases rt req_body)
    as (resp & H & [[e ->] | [[r ->] | [e ->]]]);
    eexists; (split; [exact H |]); repeat split.
  - right. right. split; reflexivity.
  - left. reflexivity.
  - left. split; reflexivity.
  - intros [[F | F] _]; discriminate F.
  - right. left. split; reflexivity.
  - right. reflexivity.
Qed.

(** C4 fails as stated: the status of a success is [success], neither [ok]
    nor [error], and a failure has no [errorKind]. *)
Lemma status_is_neither_ok_nor_error :
  (exists resp,
      outcome (handler (replying "[]") png_request) = inl resp /\
      body_field "status" resp = JStr "success" /\
      body_field "status" resp <> JStr "ok" /\
      body_field "status" resp <> JStr "error") /\
  (exists resp,
      outcome (handler (failing (mkError "Error" "fetch failed")) png_request) = inl resp /\
      is_failure resp /\
      body_field "status" resp = JStr "failure" /\
      body_field "errorKind" resp = JUndefined).
Proof.
  split.
  - eexists. split; [reflexivity |]. repeat split; discriminate.
  - eexists. split; [reflexivity |]. repeat split; [right; reflexivity | discriminate].
Qed.

(** C6 (as the code has it). Nothing in the handler or in [analyzeImage]
    looks at the names of the dictionary, and nothing is substituted. A
    request is refused for one of two reasons only: the schema reports an
    error for the body (the 400 response), or one of the expressions on
    the image, [sharp] or the model throws (the 500 response); none of
    these reads the dictionary. Every request that gets through to the
    model and is answered succeeds, whatever its dictionary holds; and
    [analyzeImage] calls the model for every dictionary, throwing nothing
    but what the model threw. *)
Theorem labels_are_never_checked (rt : Runtime) (req_body : JsValue) :
  (forall resp,
      outcome (handler rt req_body) = inl resp ->
      (exists error value,
          ImageDataSchema_validate rt req_body = (Some error, value) /\
          resp = validation_failed error)
      \/ (exists err,
            thrown rt req_body err /\ resp = internal_server_error err)
      \/ (exists text,
            answered rt req_body text /\
            resp = processed_successfully (answers_of_reply rt text))) /\
  (forall resp,
      outcome (handler rt req_body) = inl resp ->
      statusCode resp = 400 ->
      exists error value,
        ImageDataSchema_validate rt req_body = (Some error, value) /\
        resp = validation_failed error) /\
  (forall text,
      answered rt req_body text ->
      outcome (handler rt req_body)
      = inl (processed_successfully (answers_of_reply rt text))) /\
  (forall imageBuffer dictOfVars,
      (exists rest,
          trace (analyzeImage rt imageBuffer dictOfVars) =
            GenerateContent prompt_text
              (fileToGenerativePart rt imageBuffer "image/jpeg") :: rest) /\
      (forall err,
          outcome (analyzeImage rt imageBuffer dictOfVars) = inr err ->
          model_generateContent rt prompt_text
            (fileToGenerativePart rt imageBuffer "image/jpeg") = inr err)).
Proof.
  assert (cases : forall resp,
    outcome (handler rt req_body) = inl resp ->
    (exists error value,
        ImageDataSchema_validate rt req_body = (Some error, value) /\
        resp = validation_failed error)
    \/ (exists err, thrown rt req_body err /\ resp = internal_server_error err)
    \/ (exists text,
          answered rt req_body text /\
          resp = processed_successfully (answers_of_reply rt text))).
  { intros resp H.
    destruct (handler_cases rt req_body)
      as [(error & value & Hv & E) | [(err & Ht & E) | (text & Ha & E)]];
      rewrite E in H; injection H as <-; eauto 6. }
  split; [exact cases |]. split; [| split].
  - intros resp H Hcode.
    destruct (cases resp H) as [Hs | [(err & _ & ->) | (text & _ & ->)]];
      [exact Hs | discriminate Hcode | discriminate Hcode].
  - intros text Ha. apply handler_passes, handler_try_answered, Ha.
  - intros imageBuffer dictOfVars. split.
    + destruct (analyzeImage_trace rt imageBuffer dictOfVars) as (rest & E & _). eauto.
    + apply analyzeImage_throws.
Qed.

(** A request with an image and two variables of the same value. *)
Lemma labels_witness :
  answered (replying "[]") (request_body png_image [("x", JInt 2); ("y", JInt 2)]) "[]" /\
  outcome (handler (replying "[]")
             (request_body png_image [("x", JInt 2); ("y", JInt 2)]))
  = inl (processed_successfully (JArr [])).
Proof.
  assert (Ha : answered (replying "[]")
                 (request_body png_image [("x", JInt 2); ("y", JInt 2)]) "[]").
  { exists (request_body png_image [("x", JInt 2); ("y", JInt 2)]),
      png_image, "image/png", png_base64, (demo_bytes png_base64).
    repeat split; reflexivity. }
  split; [exact Ha |].
  exact (proj1 (proj2 (proj2 (labels_are_never_checked (replying "[]")
           (request_body png_image [("x", JInt 2); ("y", JInt 2)]))))
           "[]" Ha).
Defined.

(** C6 fails as stated: a request that names [x] twice reaches the handler
    as an object in which the second value has replaced the first without
    a trace; it is not refused: the model is called and the answer is the
    200 success. *)
Lemma duplicate_names_are_not_rejected :
  js_object_of_members [("x", JInt 1); ("x", JInt 2)] = [("x", JInt 2)] /\
  (exists resp,
      outcome (handler (replying "[]")
                 (request_body png_image
                    (js_object_of_members [("x", JInt 1); ("x", JInt 2)])))
      = inl resp /\
      statusCode resp = 200 /\
      body_field "status" resp = JStr "success") /\
  In (GenerateContent prompt_text
        (mkPart (demo_text (demo_bytes png_base64)) "image/jpeg"))
     (trace (handler (replying "[]")
               (request_body png_image
                  (js_object_of_members [("x", JInt 1); ("x", JInt 2)])))).
Proof.
  split; [reflexivity |]. split.
  - eexists. split; [reflexivity |]. split; reflexivity.
  - vm_compute. tauto.
Qed.

(** ** Strings: prefixes, occurrences and replacement *)

#[local] Arguments String.append !s1 s2 : simpl nomatch.

Section StringFacts.

Lemma append_nil_r (s : string) : s +:+ EmptyString = s.
Proof. induction s as [| c s IH]; simpl; [reflexivity | f_equal; exact IH]. Qed.

Lemma append_assoc (a b c : string) : (a +:+ b) +:+ c = a +:+ b +:+ c.
Proof. induction a as [| x a IH]; simpl; [reflexivity | f_equal; exact IH]. Qed.

Lemma is_prefix_append (p s : string) : is_prefix p (p +:+ s) = true.
Proof.
  induction p as [| c p IH]; simpl; [reflexivity |].
  rewrite Ascii.eqb_refl. exact IH.
Qed.

Lemma is_prefix_split (p s : string) :
  is_prefix p s = true -> s = p +:+ drop_string (String.length p) s.
Proof.
  revert s. induction p as [| c p IH]; intros s H; simpl.
  - destruct s; reflexivity.
  - destruct s as [| d s]; simpl in H; [discriminate |].
    apply andb_prop in H as [Hc Hp]. apply Ascii.eqb_eq in Hc. subst d.
    simpl. f_equal. apply IH, Hp.
Qed.

Lemma is_prefix_weaken (p q s : string) :
  is_prefix (p +:+ q) s = true -> is_prefix p s = true.
Proof.
  revert s. induction p as [| c p IH]; intros s H; simpl; [reflexivity |].
  destruct s as [| d s]; simpl in H; [discriminate |].
  apply andb_prop in H as [Hc Hp]. simpl. rewrite Hc. apply IH, Hp.
Qed.

Lemma contains_weaken (p q s : string) :
  contains p s = false -> contains (p +:+ q) s = false.
Proof.
  induction s as [| c s IH]; simpl; intros H;
    apply orb_false_elim in H as [H1 H2].
  - destruct (is_prefix (p +:+ q) EmptyString) eqn:E; [| reflexivity].
    rewrite (is_prefix_weaken _ _ _ E) in H1. discriminate.
  - rewrite (IH H2), orb_false_r.
    destruct (is_prefix (p +:+ q) (String c s)) eqn:E; [| reflexivity].
    rewrite (is_prefix_weaken _ _ _ E) in H1. discriminate.
Qed.

Lemma has_char_contains (c : ascii) (pt s : string) :
  has_char c s = false -> contains (String c pt) s = false.
Proof.
  induction s as [| d s IH]; simpl; [reflexivity |].
  intros H. apply orb_false_elim in H as [H1 H2].
  rewrite H1, (IH H2). reflexivity.
Qed.

Variables pat rep : string.

(** A text without the pattern is left as it is. *)
Lemma replace_absent (s : string) :
  contains pat s = false -> replace_all pat rep s = s.
Proof.
  unfold replace_all. induction s as [| c s IH]; simpl; [reflexivity |].
  intros H. apply orb_false_elim in H as [H1 H2].
  rewrite H1, (IH H2). reflexivity.
Qed.

(** Replacement starts after a stretch that cannot begin a match. *)
Lemma replace_after (p0 : ascii) (pt a t : string) :
  pat = String p0 pt ->
  has_char p0 a = false ->
  replace_go pat rep 0 (a +:+ t) = a +:+ replace_go pat rep 0 t.
Proof.
  intros -> H. induction a as [| c a IH]; simpl; [reflexivity |].
  simpl in H. apply orb_false_elim in H as [H1 H2].
  rewrite H1. simpl. rewrite (IH H2). reflexivity.
Qed.

(** What the output starts with, when the replacement starts with another
    character, the input starts with as well. *)
Lemma replace_prefix (r0 : ascii) (rt q : string) :
  rep = String r0 rt ->
  has_char r0 q = false ->
  forall s,
    is_prefix q (replace_go pat rep 0 s) = true -> is_prefix q s = true.
Proof.
  intros -> . induction q as [| q0 q IH]; intros Hq s H; [reflexivity |].
  simpl in Hq. apply orb_false_elim in Hq as [Hq0 Hq].
  destruct s as [| d s]; [simpl in H; discriminate |].
  simpl in H. destruct (is_prefix pat (String d s)).
  - simpl in H. rewrite Ascii.eqb_sym, Hq0 in H. discriminate.
  - simpl in H. apply andb_prop in H as [H1 H2].
    simpl. rewrite H1. apply (IH Hq), H2.
Qed.

(** An occurrence cannot start inside a text without its first character. *)
Lemma contains_skip (q0 : ascii) (qt a t : string) :
  has_char q0 a = false ->
  contains (String q0 qt) (a +:+ t) = contains (String q0 qt) t.
Proof.
  induction a as [| c a IH]; simpl; [reflexivity |].
  intros H. apply orb_false_elim in H as [H1 H2].
  rewrite H1, (IH H2). reflexivity.
Qed.

(** The pattern is gone after the replacement, when the replacement does
    not contain the first character of the pattern and starts with a
    character that the rest of the pattern does not contain. *)
Lemma replace_removes (p0 r0 : ascii) (pt rt : string) :
  pat = String p0 pt ->
  rep = String r0 rt ->
  has_char p0 rep = false ->
  has_char r0 pt = false ->
  forall s skip, contains pat (replace_go pat rep skip s) = false.
Proof.
  intros Hpat Hrep Hp Hr. induction s as [| c s IH]; intros skip.
  - subst pat. reflexivity.
  - simpl. destruct skip as [| k]; [| apply IH].
    destruct (is_prefix pat (String c s)) eqn:E.
    + rewrite Hpat at 1. rewrite (contains_skip _ _ _ _ Hp). rewrite <- Hpat. apply IH.
    + simpl. rewrite IH, orb_false_r.
      destruct (is_prefix pat (String c (replace_go pat rep 0 s))) eqn:E'; [| reflexivity].
      rewrite Hpat in E, E'. simpl in E, E'. apply andb_prop in E' as [E1 E2].
      rewrite <- Hpat in E2.
      rewrite E1, (replace_prefix _ _ _ Hrep Hr _ E2) in E. discriminate.
Qed.

(** A text that the replacement cannot help to form stays absent. *)
Lemma replace_preserves_absence (q0 r0 : ascii) (qt rt : string) :
  rep = String r0 rt ->
  has_char q0 rep = false ->
  has_char r0 qt = false ->
  forall s skip,
    contains (String q0 qt) s = false ->
    contains (String q0 qt) (replace_go pat rep skip s) = false.
Proof.
  intros Hrep Hq Hr. induction s as [| c s IH]; intros skip H.
  - reflexivity.
  - simpl in H. apply orb_false_elim in H as [H1 H2].
    simpl. destruct skip as [| k]; [| apply IH, H2].
    destruct (is_prefix pat (String c s)).
    + rewrite (contains_skip _ _ _ _ Hq). apply IH, H2.
    + simpl. rewrite (IH _ H2), orb_false_r.
      destruct (Ascii.eqb q0 c) eqn:E1; [| reflexivity]. simpl.
      destruct (is_prefix qt (replace_go pat rep 0 s)) eqn:E2; [| reflexivity].
      rewrite (replace_prefix _ _ _ Hrep Hr _ E2), andb_true_r in H1. discriminate.
Qed.

End StringFacts.

(** Deleting a run of one character: [n + 1] copies of [b]. *)
Section DeleteRun.
Variables (b : ascii) (n : nat).

Lemma is_prefix_copies_le (j k : nat) (s : string) :
  (j <= k)%nat -> is_prefix (copies k b) s = true -> is_prefix (copies j b) s = true.
Proof.
  revert k s. induction j as [| j IH]; intros k s Hle H; [reflexivity |].
  destruct k as [| k]; [lia |].
  destruct s as [| d s]; simpl in H; [discriminate |].
  apply andb_prop in H as [H1 H2]. simpl. rewrite H1.
  apply (IH k); [lia | exact H2].
Qed.

Lemma delete_run_prefix (j : nat) :
  (j <= S n)%nat ->
  forall s,
    is_prefix (copies j b) (replace_go (copies (S n) b) EmptyString 0 s) = true ->
    is_prefix (copies j b) s = true.
Proof.
  induction j as [| j IH]; intros Hj s H; [reflexivity |].
  destruct s as [| d s]; [simpl in H; discriminate |].
  cbn [replace_go] in H.
  destruct (is_prefix (copies (S n) b) (String d s)) eqn:E.
  - apply (is_prefix_copies_le (S j) (S n)); assumption.
  - cbn [copies is_prefix] in H. apply andb_prop in H as [H1 H2].
    cbn [copies is_prefix]. rewrite H1. apply IH; [lia | exact H2].
Qed.

(** No run of [n + 1] copies is left. *)
Lemma delete_run_removes (s : string) :
  forall skip,
    contains (copies (S n) b) (replace_go (copies (S n) b) EmptyString skip s) = false.
Proof.
  induction s as [| c s IH]; intros skip; [reflexivity |].
  cbn [replace_go]. destruct skip as [| k]; [| apply IH].
  destruct (is_prefix (copies (S n) b) (String c s)) eqn:E.
  - cbn [String.append]. apply IH.
  - cbn [contains]. rewrite IH, orb_false_r.
    destruct (is_prefix (copies (S n) b)
                (String c (replace_go (copies (S n) b) EmptyString 0 s))) eqn:E';
      [| reflexivity].
    cbn [copies is_prefix] in E, E'. apply andb_prop in E' as [E1 E2].
    apply delete_run_prefix in E2; [| lia].
    rewrite E1, E2 in E. discriminate.
Qed.

End DeleteRun.

(** ** utils.js: the cleaning of the model's reply *)

(** X2. The cleaned reply holds no Markdown fence, no single quote and no
    Python boolean. *)
Theorem clean_response_is_clean (responseText : string) :
  contains "```" (clean_response responseText) = false /\
  contains "'" (clean_response responseText) = false /\
  contains "True" (clean_response responseText) = false /\
  contains "False" (clean_response responseText) = false.
Proof.
  unfold clean_response, replace_all.
  set (s1 := replace_go "```json" EmptyString 0 responseText).
  set (s2 := replace_go "```" EmptyString 0 s1).
  set (s3 := replace_go "'" dq 0 s2).
  set (s4 := replace_go "True" "true" 0 s3).
  assert (F2 : contains "```" s2 = false)
    by apply (delete_run_removes "`"%char 2 s1 0).
  assert (F3 : contains "```" s3 = false)
    by (apply (replace_preserves_absence "'" dq "`" (ascii_of_nat 34) "``" EmptyString);
        [reflexivity | reflexivity | reflexivity | exact F2]).
  assert (Q3 : contains "'" s3 = false)
    by (apply (replace_removes "'" dq "'" (ascii_of_nat 34) EmptyString EmptyString);
        reflexivity).
  assert (F4 : contains "```" s4 = false)
    by (apply (replace_preserves_absence "True" "true" "`" "t" "``" "rue");
        [reflexivity | reflexivity | reflexivity | exact F3]).
  assert (Q4 : contains "'" s4 = false)
    by (apply (replace_preserves_absence "True" "true" "'" "t" EmptyString "rue");
        [reflexivity | reflexivity | reflexivity | exact Q3]).
  assert (T4 : contains "True" s4 = false)
    by (apply (replace_removes "True" "true" "T" "t" "rue" "rue"); reflexivity).
  repeat split.
  - apply (replace_preserves_absence "False" "false" "`" "f" "``" "alse");
      [reflexivity | reflexivity | reflexivity | exact F4].
  - apply (replace_preserves_absence "False" "false" "'" "f" EmptyString "alse");
      [reflexivity | reflexivity | reflexivity | exact Q4].
  - apply (replace_preserves_absence "False" "false" "T" "f" "rue" "alse");
      [reflexivity | reflexivity | reflexivity | exact T4].
  - apply (replace_removes "False" "false" "F" "f" "alse" "alse"); reflexivity.
Qed.

(** The four texts being absent, nothing is replaced. *)
Lemma clean_response_unchanged (s : string) :
  contains "```" s = false ->
  contains "'" s = false ->
  contains "True" s = false ->
  contains "False" s = false ->
  clean_response s = s.
Proof.
  intros H1 H2 H3 H4. unfold clean_response.
  rewrite (replace_absent "```json" EmptyString s)
    by apply (contains_weaken "```" "json" s H1).
  rewrite (replace_absent _ _ _ H1), (replace_absent _ _ _ H2),
    (replace_absent _ _ _ H3), (replace_absent _ _ _ H4).
  reflexivity.
Qed.

(** X3. A text that is clean already is not changed, and cleaning twice is
    cleaning once. *)
Theorem clean_response_fixpoint (responseText : string) :
  (contains "```" responseText = false ->
   contains "'" responseText = false ->
   contains "True" responseText = false ->
   contains "False" responseText = false ->
   clean_response responseText = responseText) /\
  clean_response (clean_response responseText) = clean_response responseText.
Proof.
  split; [apply clean_response_unchanged |].
  destruct (clean_response_is_clean responseText) as (H1 & H2 & H3 & H4).
  apply clean_response_unchanged; assumption.
Qed.

(** A list of numbers needs no cleaning. *)
Lemma clean_response_fixpoint_witness : clean_response "[1, 2, 3]" = "[1, 2, 3]".
Proof.
  apply (proj1 (clean_response_fixpoint "[1, 2, 3]")); reflexivity.
Defined.

(** A prefix that [a] does not have is not gained by appending a text that
    starts with a character foreign to the prefix. *)
Lemma is_prefix_append_foreign (q a : string) (b : ascii) (t : string) :
  has_char b q = false ->
  is_prefix q a = false ->
  is_prefix q (a +:+ String b t) = false.
Proof.
  revert a. induction q as [| q0 q IH]; intros a Hb H; [discriminate H |].
  simpl in Hb. apply orb_false_elim in Hb as [Hb0 Hb].
  destruct a as [| c a]; simpl.
  - rewrite Ascii.eqb_sym, Hb0. reflexivity.
  - simpl in H. destruct (Ascii.eqb q0 c); [| reflexivity].
    apply IH; assumption.
Qed.

(** A text that starts with another character than [b] has no prefix that
    starts with [b]. *)
Lemma is_prefix_first_differs (b c : ascii) (q r t : string) :
  has_char b (String c r) = false ->
  is_prefix (String b q) (String c r +:+ t) = false.
Proof.
  simpl. intros H. apply orb_false_elim in H as [H _]. rewrite H. reflexivity.
Qed.

(** The tag of a fence is met only where the reply starts with it. *)
Lemma untagged_fence_has_no_tag (reply : string) :
  has_char "`" reply = false ->
  is_prefix "json" reply = false ->
  contains "```json" ("```" +:+ reply +:+ "```") = false.
Proof.
  intros Hb Hj.
  assert (Hrest : contains "```json" (reply +:+ "```") = false)
    by (rewrite (contains_skip "`" "``json" reply "```" Hb); reflexivity).
  assert (H0 : is_prefix "json" (reply +:+ "```") = false)
    by apply (is_prefix_append_foreign "json" reply "`" "``" eq_refl Hj).
  change (contains "```json" ("```" +:+ reply +:+ "```"))
    with (is_prefix "json" (reply +:+ "```")
          || (is_prefix "`json" (reply +:+ "```")
              || (is_prefix "``json" (reply +:+ "```")
                  || contains "```json" (reply +:+ "```")))).
  rewrite H0, Hrest. destruct reply as [| c r]; [reflexivity |].
  rewrite (is_prefix_first_differs "`" c "json" r "```" Hb).
  rewrite (is_prefix_first_differs "`" c "`json" r "```" Hb).
  reflexivity.
Qed.

(** X4. A reply inside a Markdown fence tagged [json] is cleaned to what the
    bare reply is cleaned to; so is a reply inside an untagged fence, unless
    it starts with the letters of the tag. *)
Theorem clean_response_drops_the_fence (reply : string) :
  has_char "`" reply = false ->
  clean_response ("```json" +:+ reply +:+ "```") = clean_response reply /\
  (is_prefix "json" reply = false ->
   clean_response ("```" +:+ reply +:+ "```") = clean_response reply).
Proof.
  intros H.
  assert (R1 : replace_all "```json" EmptyString reply = reply)
    by (apply replace_absent, has_char_contains, H).
  assert (R2 : replace_all "```" EmptyString reply = reply)
    by (apply replace_absent, has_char_contains, H).
  assert (E1 : replace_all "```json" EmptyString (reply +:+ "```") = reply +:+ "```").
  { unfold replace_all.
    rewrite (replace_after "```json" EmptyString "`" "``json" reply "```" eq_refl H).
    reflexivity. }
  assert (E2 : replace_all "```" EmptyString (reply +:+ "```") = reply).
  { unfold replace_all.
    rewrite (replace_after "```" EmptyString "`" "``" reply "```" eq_refl H).
    cbn. apply append_nil_r. }
  unfold clean_response. split.
  - replace (replace_all "```json" EmptyString ("```json" +:+ reply +:+ "```"))
      with (replace_all "```json" EmptyString (reply +:+ "```")) by reflexivity.
    rewrite E1, E2, R1, R2. reflexivity.
  - intros Hj.
    rewrite (replace_absent "```json" EmptyString ("```" +:+ reply +:+ "```"))
      by (apply untagged_fence_has_no_tag; assumption).
    replace (replace_all "```" EmptyString ("```" +:+ reply +:+ "```"))
      with (replace_all "```" EmptyString (reply +:+ "```")) by reflexivity.
    rewrite E2, R1, R2. reflexivity.
Qed.

(** The reply that the prompt asks for, inside a tagged fence. *)
Lemma clean_response_fence_witness :
  clean_response ("```json" +:+ "[{'expr': '2 + 2', 'result': 4}]" +:+ "```")
  = clean_response "[{'expr': '2 + 2', 'result': 4}]".
Proof.
  apply (proj1 (clean_response_drops_the_fence "[{'expr': '2 + 2', 'result': 4}]" eq_refl)).
Defined.

(** An untagged fence around a reply that starts with the tag's letters:
    the letters go with the fence. *)
Example untagged_fence_eats_the_tag :
  clean_response ("```" +:+ "json [1]" +:+ "```") = " [1]" /\
  clean_response "json [1]" = "json [1]".
Proof. split; reflexivity. Qed.

(** ** route.js: the pattern of the data URL *)

Lemma take_line_split (s : string) :
  no_line_terminator (take_line s) = true /\ exists r, s = take_line s +:+ r.
Proof.
  induction s as [| c s [IH1 [r IH2]]]; simpl.
  - split; [reflexivity | exists EmptyString; reflexivity].
  - destruct (is_line_terminator c) eqn:E.
    + split; [reflexivity | exists (String c s); reflexivity].
    + split.
      * unfold no_line_terminator in *. simpl. rewrite E, IH1. reflexivity.
      * exists r. simpl. f_equal. exact IH2.
Qed.

Lemma take_line_append (a t : string) :
  no_line_terminator a = true -> take_line (a +:+ t) = a +:+ take_line t.
Proof.
  unfold no_line_terminator. induction a as [| c a IH]; simpl; [reflexivity |].
  intros H. apply andb_prop in H as [H1 H2].
  apply negb_true_iff in H1. rewrite H1. f_equal. apply IH, H2.
Qed.

Lemma all_chars_append (P : ascii -> bool) (a t : string) :
  all_chars P (a +:+ t) = all_chars P a && all_chars P t.
Proof.
  induction a as [| c a IH]; simpl; [reflexivity |].
  rewrite IH. apply andb_assoc.
Qed.

Lemma all_chars_take (P : ascii -> bool) (k : nat) (s : string) :
  all_chars P s = true -> all_chars P (take_string k s) = true.
Proof.
  revert s. induction k as [| k IH]; intros s H; [reflexivity |].
  destruct s as [| c s]; [reflexivity |].
  simpl in *. apply andb_prop in H as [H1 H2]. rewrite H1. apply IH, H2.
Qed.

Lemma last_occurrence_split (pat s : string) (k : nat) :
  last_occurrence pat s = Some k ->
  exists r, s = take_string k s +:+ pat +:+ r.
Proof.
  revert k. induction s as [| c s IH]; intros k H; [discriminate H |].
  simpl in H. destruct (last_occurrence pat s) as [k' |].
  - injection H as <-. destruct (IH k' eq_refl) as [r E].
    exists r. simpl. f_equal. exact E.
  - destruct (is_prefix pat (String c s)) eqn:E; [| discriminate H].
    injection H as <-. exists (drop_string (String.length pat) (String c s)).
    apply (is_prefix_split _ _ E).
Qed.

Lemma last_occurrence_found (p0 : ascii) (pt a t : string) :
  exists k,
    last_occurrence (String p0 pt) (a +:+ String p0 pt +:+ t) = Some k /\
    (String.length a <= k)%nat.
Proof.
  induction a as [| c a (k & IH & Hk)].
  - change (EmptyString +:+ String p0 pt +:+ t) with (String p0 (pt +:+ t)).
    cbn [last_occurrence].
    destruct (last_occurrence (String p0 pt) (pt +:+ t)) as [k |].
    + exists (S k). split; [reflexivity | simpl; lia].
    + exists O. change (String p0 (pt +:+ t)) with (String p0 pt +:+ t).
      rewrite is_prefix_append. split; [reflexivity | simpl; lia].
  - exists (S k). change (String c a +:+ String p0 pt +:+ t)
      with (String c (a +:+ String p0 pt +:+ t)).
    cbn [last_occurrence]. rewrite IH. split; [reflexivity | simpl; lia].
Qed.

Lemma take_string_prefix (a t : string) (k : nat) :
  (String.length a <= k)%nat -> is_prefix a (take_string k (a +:+ t)) = true.
Proof.
  revert k. induction a as [| c a IH]; intros k H; [reflexivity |].
  destruct k as [| k]; simpl in H; [lia |].
  simpl. rewrite Ascii.eqb_refl. apply IH. lia.
Qed.

(** X5. What [image.match(/^data:(.+);base64/)] accepts and what its group is:
    a match means that the image is [data:], then the group, then
    [;base64]; the group is not empty and holds no line terminator.
    Conversely every image of that form matches, with a group that starts
    with the given one (the group is greedy). *)
Theorem data_url_pattern (image : string) :
  (forall mimeType,
      match_data_url image = Some mimeType ->
      mimeType <> EmptyString /\
      no_line_terminator mimeType = true /\
      exists rest, image = "data:" +:+ mimeType +:+ ";base64" +:+ rest) /\
  (forall mimeType rest,
      mimeType <> EmptyString ->
      no_line_terminator mimeType = true ->
      image = "data:" +:+ mimeType +:+ ";base64" +:+ rest ->
      exists group,
        match_data_url image = Some group /\ is_prefix mimeType group = true).
Proof.
  split.
  - intros m H. unfold match_data_url in H.
    destruct (is_prefix "data:" image) eqn:Ep; [| discriminate H].
    apply is_prefix_split in Ep. cbn [String.length] in Ep.
    destruct (take_line_split (drop_string 5 image)) as [Hl [r Er]].
    destruct (take_line (drop_string 5 image)) as [| c line] eqn:El; [discriminate H |].
    destruct (last_occurrence ";base64" line) as [k |] eqn:Ek; [| discriminate H].
    injection H as <-.
    destruct (last_occurrence_split _ _ _ Ek) as [r' Er'].
    unfold no_line_terminator in *. simpl in Hl. apply andb_prop in Hl as [Hc Hline].
    split; [discriminate |]. split.
    + simpl. rewrite Hc. apply all_chars_take, Hline.
    + exists (r' +:+ r). rewrite Ep, Er. simpl. do 6 f_equal.
      rewrite Er' at 1. rewrite !append_assoc. reflexivity.
  - intros m rest Hne Hl ->. destruct m as [| c m]; [contradiction |].
    unfold match_data_url.
    change (is_prefix "data:" ("data:" +:+ String c m +:+ ";base64" +:+ rest)) with true.
    change (drop_string 5 ("data:" +:+ String c m +:+ ";base64" +:+ rest))
      with (String c m +:+ ";base64" +:+ rest).
    cbn match.
    rewrite <- append_assoc, take_line_append.
    2:{ unfold no_line_terminator in *. rewrite all_chars_append, Hl. reflexivity. }
    rewrite append_assoc.
    change (String c m +:+ ";base64" +:+ take_line rest)
      with (String c (m +:+ ";base64" +:+ take_line rest)).
    cbn match.
    destruct (last_occurrence_found ";" "base64" m (take_line rest)) as (k & Ek & Hk).
    rewrite Ek. eexists. split; [reflexivity |].
    simpl. rewrite Ascii.eqb_refl. apply take_string_prefix, Hk.
Qed.

(** A JPEG data URL. *)
Lemma data_url_pattern_witness :
  exists group,
    match_data_url ("data:" +:+ "image/jpeg" +:+ ";base64" +:+ ",/9j/4AAQ") = Some group /\
    is_prefix "image/jpeg" group = true.
Proof.
  apply (proj2 (data_url_pattern ("data:" +:+ "image/jpeg" +:+ ";base64" +:+ ",/9j/4AAQ"))
           "image/jpeg" ",/9j/4AAQ"); [discriminate | reflexivity | reflexivity].
Defined.

(** ** route.js: the payload after the comma *)

Lemma js_split_no_separator (sep : ascii) (s : string) :
  has_char sep s = false -> js_split sep s = [s].
Proof.
  induction s as [| c s IH]; simpl; [reflexivity |].
  intros H. apply orb_false_elim in H as [H1 H2].
  rewrite Ascii.eqb_sym, H1, (IH H2). reflexivity.
Qed.

Lemma js_split_at_separator (sep : ascii) (a t : string) :
  has_char sep a = false ->
  js_split sep (a +:+ String sep t) = a :: js_split sep t.
Proof.
  induction a as [| c a IH]; simpl.
  - rewrite Ascii.eqb_refl. reflexivity.
  - intros H. apply orb_false_elim in H as [H1 H2].
    rewrite Ascii.eqb_sym, H1, (IH H2). reflexivity.
Qed.

(** X6. [image.split(",")[1]] is the text between the first and the second
    comma: what follows a second comma is dropped, and an image without a
    comma has no payload at all. *)
Theorem payload_between_commas (head payload : string) :
  has_char "," head = false ->
  has_char "," payload = false ->
  nth_error (js_split "," head) 1 = None /\
  nth_error (js_split "," (head +:+ "," +:+ payload)) 1 = Some payload /\
  (forall tail,
      nth_error (js_split "," (head +:+ "," +:+ payload +:+ "," +:+ tail)) 1
      = Some payload).
Proof.
  intros Hh Hp. split; [| split].
  - rewrite (js_split_no_separator _ _ Hh). reflexivity.
  - change (head +:+ "," +:+ payload) with (head +:+ String "," payload).
    rewrite (js_split_at_separator _ _ _ Hh), (js_split_no_separator _ _ Hp).
    reflexivity.
  - intros tail.
    change (head +:+ "," +:+ payload +:+ "," +:+ tail)
      with (head +:+ String "," (payload +:+ String "," tail)).
    rewrite (js_split_at_separator _ _ _ Hh), (js_split_at_separator _ _ _ Hp).
    reflexivity.
Qed.

Lemma payload_witness :
  nth_error (js_split "," ("data:image/png;base64" +:+ "," +:+ "iVBORw0KGgo="
                             +:+ "," +:+ "trailing")) 1
  = Some "iVBORw0KGgo=".
Proof.
  apply (proj2 (proj2 (payload_between_commas "data:image/png;base64" "iVBORw0KGgo="
                         eq_refl eq_refl))).
Defined.

(** ** route.js: the paths that the claims leave out *)

Section MorePaths.
Variable rt : Runtime.
Variable req_body : JsValue.

Local Arguments analyzeImage : simpl never.

(** X7. The image matches the pattern but has no comma: [Buffer.from] is given
    [undefined] and throws; the answer is the 500 failure, and neither
    [sharp] nor the model is called. *)
Theorem image_without_comma_is_internal_server_error
    (value : JsValue) (image mimeType : string) :
  ImageDataSchema_validate rt req_body = (None, value) ->
  value_image value = JStr image ->
  match_data_url image = Some mimeType ->
  has_char "," image = false ->
  exists message,
    handler rt req_body =
      (inl (internal_server_error (TypeError message)),
       [ConsoleError "Error in /calculate route:" message]) /\
    outcome (Buffer_from rt None) = inr (TypeError message).
Proof.
  intros Hv Hi Hm Hc. eexists. split; [| reflexivity].
  unfold handler, handler_try. rewrite Hv.
  destruct value; try discriminate Hi. simpl in Hi.
  unfold destructure_value. rewrite bind_ret. cbn [fst snd]. rewrite Hi.
  unfold image_string. rewrite bind_ret.
  unfold match_group_1. rewrite Hm, bind_ret.
  rewrite (js_split_no_separator _ _ Hc). reflexivity.
Qed.

(** X8. The schema lets through a value whose [image] is not a string (a
    missing member, a number, an object, ...): a TypeError is thrown before
    anything is done with the image, and the answer is the 500 failure. *)
Theorem image_not_a_string_is_internal_server_error (value : JsValue) :
  ImageDataSchema_validate rt req_body = (None, value) ->
  (forall image, value_image value <> JStr image) ->
  exists message,
    handler rt req_body =
      (inl (internal_server_error (TypeError message)),
       [ConsoleError "Error in /calculate route:" message]).
Proof.
  intros Hv Hi. unfold handler, handler_try. rewrite Hv.
  destruct value as [| | b | q | s | items | members];
    try (eexists; reflexivity).
  simpl in Hi. unfold destructure_value. rewrite bind_ret. cbn [fst snd].
  destruct (js_get "image" members) as [| | b | q | s | items | members'];
    try (eexists; reflexivity).
  exfalso. apply (Hi s). reflexivity.
Qed.

(** X9. [sharp] rejects the decoded image: the answer is the 500 failure with
    the message of [sharp], and the model is not called. *)
Theorem sharp_rejection_is_internal_server_error
    (value : JsValue) (image mimeType base64Data : string) (err : JsError) :
  ImageDataSchema_validate rt req_body = (None, value) ->
  value_image value = JStr image ->
  match_data_url image = Some mimeType ->
  nth_error (js_split "," image) 1 = Some base64Data ->
  sharp_resize_toBuffer rt (Buffer_from_base64 rt base64Data) = inr err ->
  handler rt req_body =
    (inl (internal_server_error err),
     [SharpResize (Buffer_from_base64 rt base64Data);
      ConsoleError "Error in /calculate route:" (err_message err)]).
Proof.
  intros Hv Hi Hm Hd Hs. unfold handler.
  rewrite (handler_try_sharp_error _ _ _ _ _ _ _ Hv Hi Hm Hd Hs). reflexivity.
Qed.

(** X10. Everything goes well: the answer is the 200 success whose [data] is
    what [JSON.parse] made of the cleaned reply, whatever JSON value that
    is; the calls are one of [sharp], one of the model on the resized
    image, and one log line. *)
Theorem parsed_reply_is_the_data
    (value : JsValue) (image mimeType base64Data : string)
    (processedImage : Buffer) (text : string) (answers : JsValue) :
  ImageDataSchema_validate rt req_body = (None, value) ->
  value_image value = JStr image ->
  match_data_url image = Some mimeType ->
  nth_error (js_split "," image) 1 = Some base64Data ->
  sharp_resize_toBuffer rt (Buffer_from_base64 rt base64Data) = inl processedImage ->
  model_generateContent rt prompt_text
    (fileToGenerativePart rt processedImage "image/jpeg") = inl text ->
  JSON_parse rt (clean_response text) = inl answers ->
  handler rt req_body =
    (inl (processed_successfully answers),
     [SharpResize (Buffer_from_base64 rt base64Data);
      GenerateContent prompt_text (fileToGenerativePart rt processedImage "image/jpeg");
      ConsoleLog "Response from Gemini:" text]) /\
  body_field "data" (processed_successfully answers) = answers.
Proof.
  intros Hv Hi Hm Hd Hs Hg Hp. split; [| reflexivity]. unfold handler.
  rewrite (handler_try_reaches_backend _ _ _ _ _ _ _ Hv Hi Hm Hd Hs).
  rewrite (analyzeImage_parsed _ _ _ _ _ Hg Hp). reflexivity.
Qed.

(** X11. The external calls of a request, in their order: none; or [sharp]
    alone; or [sharp] and then, [sharp] having succeeded, the model once,
    on the image that [sharp] returned. Nothing is called twice. *)
Theorem external_calls_of_a_request :
  List.filter is_processing (trace (handler rt req_body)) = []
  \/ (exists imageBuffer,
        List.filter is_processing (trace (handler rt req_body))
        = [SharpResize imageBuffer])
  \/ (exists imageBuffer processedImage,
        sharp_resize_toBuffer rt imageBuffer = inl processedImage /\
        List.filter is_processing (trace (handler rt req_body))
        = [SharpResize imageBuffer;
           GenerateContent prompt_text
             (fileToGenerativePart rt processedImage "image/jpeg")]).
Proof.
  assert (Hcatch : forall (m : M Response),
    List.filter is_processing
      (trace (try_catch m (fun error =>
         console_error "Error in /calculate route:" (err_message error) ;;;
         ret (internal_server_error error))))
    = List.filter is_processing (trace m)).
  { intros [[r | e] t]; simpl; [reflexivity |].
    rewrite List.filter_app. simpl. apply app_nil_r. }
  unfold handler. rewrite Hcatch. clear Hcatch. unfold handler_try.
  destruct (ImageDataSchema_validate rt req_body) as [[error |] value];
    [left; reflexivity |].
  destruct (destructure_value value) as [[fields | e] t] eqn:E1;
    pose proof (destructure_value_trace value) as T1; rewrite E1 in T1;
    simpl in T1; subst t; [| left; reflexivity].
  rewrite (bind_ret fields).
  destruct (image_string (fst fields)) as [[image | e] t] eqn:E2;
    pose proof (image_string_trace (fst fields)) as T2; rewrite E2 in T2;
    simpl in T2; subst t; [| left; reflexivity].
  rewrite (bind_ret image).
  destruct (match_group_1 image) as [[mimeType | e] t] eqn:E3;
    pose proof (match_group_1_trace image) as T3; rewrite E3 in T3;
    simpl in T3; subst t; [| left; reflexivity].
  rewrite (bind_ret mimeType).
  destruct (Buffer_from rt (nth_error (js_split "," image) 1))
    as [[imageBuffer | e] t] eqn:E4;
    pose proof (Buffer_from_trace rt (nth_error (js_split "," image) 1)) as T4;
    rewrite E4 in T4; simpl in T4; subst t; [| left; reflexivity].
  rewrite (bind_ret imageBuffer).
  unfold sharp, lift. cbn [emit bind].
  destruct (sharp_resize_toBuffer rt imageBuffer) as [processedImage | e] eqn:E5;
    [| right; left; exists imageBuffer; reflexivity].
  right. right. exists imageBuffer, processedImage. split; [exact E5 |].
  cbn [app trace snd].
  destruct (analyzeImage_trace rt processedImage (snd fields)) as (rest & Et & Hrest).
  destruct (analyzeImage rt processedImage (snd fields)) as [[responses | e] t] eqn:E6;
    simpl in Et; subst t; cbn.
  - rewrite app_nil_r. f_equal. f_equal.
    clear E6. induction Hrest as [| ev rest Hev _ IH]; [reflexivity |].
    simpl. rewrite Hev. exact IH.
  - f_equal. f_equal.
    clear E6. induction Hrest as [| ev rest Hev _ IH]; [reflexivity |].
    simpl. rewrite Hev. exact IH.
Qed.

End MorePaths.

(** A data URL without a comma. *)
Lemma image_without_comma_witness :
  exists message,
    handler (replying "[]") (request_body "data:image/png;base64" []) =
      (inl (internal_server_error (TypeError message)),
       [ConsoleError "Error in /calculate route:" message]).
Proof.
  destruct (image_without_comma_is_internal_server_error (replying "[]")
              (request_body "data:image/png;base64" [])
              (request_body "data:image/png;base64" [])
              "data:image/png;base64" "image/png"
              eq_refl eq_refl eq_refl eq_refl) as (message & H & _).
  exists message. exact H.
Defined.

(** A body without an [image], under a schema that lets it through. *)
Lemma image_not_a_string_witness :
  exists message,
    handler (lenient_runtime (inl "[]")) (JObj [("dict_of_vars", JObj [])]) =
      (inl (internal_server_error (TypeError message)),
       [ConsoleError "Error in /calculate route:" message]).
Proof.
  apply (image_not_a_string_is_internal_server_error (lenient_runtime (inl "[]"))
           (JObj [("dict_of_vars", JObj [])]) (JObj [("dict_of_vars", JObj [])]) eq_refl).
  intros image H. discriminate H.
Defined.

(** A data URL with an empty payload: [sharp] is given an empty buffer. *)
Lemma sharp_rejection_witness :
  handler (replying "[]") (request_body "data:image/png;base64," []) =
    (inl (internal_server_error (mkError "Error" "Input Buffer is empty")),
     [SharpResize [];
      ConsoleError "Error in /calculate route:" "Input Buffer is empty"]).
Proof.
  apply (sharp_rejection_is_internal_server_error (replying "[]")
           (request_body "data:image/png;base64," [])
           (request_body "data:image/png;base64," [])
           "data:image/png;base64," "image/png" EmptyString
           (mkError "Error" "Input Buffer is empty")
           eq_refl eq_refl eq_refl eq_refl eq_refl).
Defined.

(** The model answers with a bare number: the data is that number, not a
    list. *)
Lemma parsed_reply_witness :
  outcome (handler (replying "42") png_request) = inl (processed_successfully (JInt 42)).
Proof.
  exact (f_equal fst (proj1 (parsed_reply_is_the_data (replying "42") png_request
           png_request png_image "image/png" png_base64
           (demo_bytes png_base64) "42" (JInt 42)
           eq_refl eq_refl eq_refl eq_refl eq_refl eq_refl eq_refl))).
Defined.

(** ** The expression validator *)

Module ValidatorFacts.
Import Validator.

Example validate_sum : validate "2+3" = Ok.
Proof. reflexivity. Qed.

Example validate_unary_minus : validate "2*(-3)" = Ok.
Proof. reflexivity. Qed.

Example validate_blank : validate "  " = Empty.
Proof. reflexivity. Qed.

Example validate_double_plus : validate "2++3" = Err MalformedOperatorSequence.
Proof. reflexivity. Qed.

Example validate_empty_group : validate "()" = Err EmptyGroup.
Proof. reflexivity. Qed.

(** What a successful scan from depth [d] says about the counter. *)
Lemma balanced_from_sound (cs : list ascii) :
  forall d : Z,
    0 <= d ->
    balanced_from d cs = true ->
    (forall n, 0 <= d + depth_after (firstn n cs)) /\ d + depth_after cs = 0.
Proof.
  induction cs as [| c rest IH]; intros d Hd H.
  - simpl in H. apply Z.eqb_eq in H. subst d.
    split; [intros n; rewrite firstn_nil; simpl; lia | reflexivity].
  - simpl in H. unfold paren_step in *.
    assert (Hstep :
      exists d', 0 <= d' /\ d' = d + paren_step c /\ balanced_from d' rest = true).
    { unfold paren_step.
      destruct (Ascii.eqb c "(").
      - exists (d + 1). repeat split; [lia | exact H].
      - destruct (Ascii.eqb c ")").
        + destruct (d - 1 <? 0) eqn:E; [discriminate |].
          apply Z.ltb_ge in E. exists (d - 1). repeat split; [lia | exact H].
        + exists d. repeat split; [lia | lia | exact H]. }
    destruct Hstep as (d' & Hd' & Eq & Hb).
    destruct (IH d' Hd' Hb) as [Hpre Hend].
    split.
    + intros [| n]; simpl; [lia |]. specialize (Hpre n).
      fold (paren_step c). lia.
    + simpl. fold (paren_step c). lia.
Qed.

Lemma unbalanced_fails_scan (expr : string) :
  unbalanced expr -> balanced_from 0 (list_ascii_of_string expr) = false.
Proof.
  intros U. destruct (balanced_from 0 (list_ascii_of_string expr)) eqn:E; [| reflexivity].
  destruct (balanced_from_sound _ 0 (Z.le_refl 0) E) as [Hpre Hend].
  destruct U as [[n Hn] | Hne].
  - specialize (Hpre n). lia.
  - simpl in Hend. contradiction.
Qed.

(** C7 (under the order of the checks). An expression that passes checks 1
    and 2 (it is not blank, and every character is on the whitelist) and
    whose depth counter goes negative or does not end at zero is refused with
    [UnbalancedParentheses]. *)
Theorem unbalanced_parentheses_reported (expr : string) :
  forallb is_whitespace (list_ascii_of_string expr) = false ->
  forallb allowed (list_ascii_of_string expr) = true ->
  unbalanced expr ->
  validate expr = Err UnbalancedParentheses.
Proof.
  intros H1 H2 U. unfold validate. cbv zeta.
  rewrite H1, H2, (unbalanced_fails_scan _ U). reflexivity.
Qed.

(** The example of the specification: an opening parenthesis that is never
    closed. *)
Lemma unclosed_parenthesis_witness :
  unbalanced "(2+3" /\ validate "(2+3" = Err UnbalancedParentheses.
Proof.
  assert (U : unbalanced "(2+3") by (right; discriminate).
  split; [exact U |].
  exact (unbalanced_parentheses_reported "(2+3" eq_refl eq_refl U).
Defined.

(** C7 fails as stated: these texts are unbalanced, one never closing, one
    going negative, and the earlier whitelist check decides. *)
Lemma unbalanced_but_invalid_character :
  unbalanced "(2#3" /\
  validate "(2#3" = Err InvalidCharacter /\
  unbalanced "2)&" /\
  validate "2)&" = Err InvalidCharacter /\
  Err InvalidCharacter <> Err UnbalancedParentheses.
Proof.
  split; [right; discriminate |]. split; [reflexivity |].
  split; [left; exists 2%nat; reflexivity |]. split; [reflexivity | discriminate].
Qed.

End ValidatorFacts.

(** ** The geometric formula registry *)

Module FormulasFacts.
Import Formulas.

Section Registry.
Variable number : Type.
Variable catalog : list ShapeSpec.
Variable formula : string -> CalcType -> gmap string Q -> number.
Variable is_angle : string -> bool.
Variable below_full_turn : Q -> bool.

Lemma first_missing_none (required : list string) (ps : gmap string Q) :
  (forall q, In q required -> is_Some (ps !! q)) ->
  first_missing required ps = None.
Proof.
  induction required as [| q rest IH]; intros H; [reflexivity |].
  simpl. destruct (H q (or_introl eq_refl)) as [v ->].
  apply IH. intros q' Hq'. apply H. right. exact Hq'.
Qed.

Lemma first_invalid_some (required : list string) (ps : gmap string Q) (p : string) (v : Q) :
  In p required ->
  ps !! p = Some v ->
  (v <= 0)%Q ->
  exists q reason, first_invalid is_angle below_full_turn required ps = Some (q, reason).
Proof.
  induction required as [| q rest IH]; intros Hin Hp Hv; [contradiction |].
  simpl. destruct Hin as [-> | Hin].
  - rewrite Hp. unfold refusal.
    apply Qle_bool_iff in Hv. rewrite Hv. eauto.
  - destruct (ps !! q) as [w |]; [| auto].
    destruct (refusal is_angle below_full_turn q w); eauto.
Qed.

(** A request that passes validation runs exactly its formula. *)
Lemma calculate_valid (req : CalcRequest) :
  check_request catalog is_angle below_full_turn req = None ->
  calculate number catalog formula is_angle below_full_turn req =
    (Value (formula (shapeName req) (calcType req) (params req)),
     [mkCall (shapeName req) (calcType req) (params req)]).
Proof. intros H. unfold calculate. rewrite H. reflexivity. Qed.

(** A request that fails validation runs no formula. *)
Lemma calculate_invalid (req : CalcRequest) (kind : ErrorKind) (message : string) :
  check_request catalog is_angle below_full_turn req = Some (kind, message) ->
  calculate number catalog formula is_angle below_full_turn req =
    (Failure kind message, []).
Proof. intros H. unfold calculate. rewrite H. reflexivity. Qed.

End Registry.

(** C8 (under the order of the checks). A request for a shape of the catalog
    and a calculation that the shape supports, giving every required
    parameter, one of them not strictly positive, is refused with
    [InvalidParameter], and no formula is run. *)
Theorem nonpositive_parameter_refused
    (number : Type) (catalog : list ShapeSpec)
    (formula : string -> CalcType -> gmap string Q -> number)
    (is_angle : string -> bool) (below_full_turn : Q -> bool)
    (req : CalcRequest) (s : ShapeSpec) (p : string) (v : Q) :
  find_shape catalog (shapeName req) = Some s ->
  supports s (calcType req) = true ->
  (forall q, In q (requiredParams s) -> is_Some (params req !! q)) ->
  In p (requiredParams s) ->
  params req !! p = Some v ->
  (v <= 0)%Q ->
  exists message,
    calculate number catalog formula is_angle below_full_turn req =
      (Failure InvalidParameter message, []).
Proof.
  intros Hs Hc Hall Hin Hp Hv.
  destruct (first_invalid_some is_angle below_full_turn _ _ _ _ Hin Hp Hv)
    as (q & reason & Hbad).
  exists (q +:+ ": " +:+ reason). apply calculate_invalid.
  unfold check_request. rewrite Hs, Hc. cbn [negb].
  rewrite (first_missing_none _ _ Hall), Hbad. reflexivity.
Qed.

(** The example of the specification: the area of a circle of radius -1. *)
Lemma negative_radius_witness :
  exists message,
    spec_calculate (mkRequest "Circle" area {[ "r" := (-1)%Q ]}) =
      (Failure InvalidParameter message, []).
Proof.
  apply (nonpositive_parameter_refused R spec_catalog spec_formula (fun _ => false)
           below_360 (mkRequest "Circle" area {[ "r" := (-1)%Q ]})
           (mkShape "Circle" ["r"] [area]) "r" (-1)%Q).
  - reflexivity.
  - reflexivity.
  - intros q [<- | []]. exists (-1)%Q. reflexivity.
  - left. reflexivity.
  - reflexivity.
  - discriminate.
Defined.

Example negative_radius_message :
  spec_calculate (mkRequest "Circle" area {[ "r" := (-1)%Q ]}) =
    (Failure InvalidParameter "r: must be strictly positive", []).
Proof. apply calculate_invalid. reflexivity. Qed.

Example rectangle_area :
  exists v,
    spec_calculate (mkRequest "Rectangle" area {[ "l" := 5%Q; "w" := 3%Q ]}) =
      (Value v, [mkCall "Rectangle" area {[ "l" := 5%Q; "w" := 3%Q ]}]) /\
    v = 15%R.
Proof.
  eexists. split.
  - apply calculate_valid. reflexivity.
  - unfold spec_formula, param. cbn.
    rewrite lookup_insert_eq, lookup_insert_ne, lookup_singleton_eq by discriminate.
    unfold Q2R. cbn. lra.
Qed.

(** C8 fails as stated: the radius is -1 in both requests, but the shape is
    not in the catalog, or a required parameter is missing, and the earlier
    check decides. *)
Lemma negative_radius_but_other_failure :
  spec_calculate (mkRequest "Hexagon" area {[ "r" := (-1)%Q ]}) =
    (Failure UnknownShape "Hexagon", []) /\
  spec_calculate (mkRequest "Cylinder" surfaceArea {[ "r" := (-1)%Q ]}) =
    (Failure MissingParameter "h", []) /\
  (({[ "r" := (-1)%Q ]} : gmap string Q) !! "r" = Some (-1)%Q) /\
  (-1 <= 0)%Q.
Proof.
  split; [apply calculate_invalid; reflexivity |].
  split; [apply calculate_invalid; reflexivity |].
  split; [reflexivity | discriminate].
Qed.

End FormulasFacts.
